(** * ArkAngel: page-context extraction, coordinator state and fallback answers

    A shallow embedding of the parts of the ArkAngel browser extension and of
    its backend that the specification talks about:

    - [JS]: the JavaScript string and array primitives the code relies on;
    - [Server]: the backend routes file ([generateAIResponse],
      [generateContextualAnswer], [getPageType], [analyzePageContext]);
    - [DOM]: the document, through the properties the extractor reads;
    - [Content], [Background]: the two copies of [extractPageContext] and the
      coordinator's listeners of [extension/background.js];
    - [SidePanel], [ExtensionPanel]: the panel of [extension/sidepanel.js]
      and the demo panel of [client/src/pages/extension-panel.tsx];
    - [Spec]: the properties in the words of the specification.

    Asynchronous functions are split where they await: the part that runs
    up to the await returns the new state and the requests it issues, and a
    [_resume] function takes the awaited outcome.

    Strings are sequences of code units; the development works with code
    units in the range 0..255, which is what [ascii] offers. *)

From Stdlib Require Import String Ascii List Bool Arith PeanoNat Lia.
From Stdlib Require Import DecimalString.
From Stdlib Require Import ZArith.
Import ListNotations.

Local Open Scope list_scope.
Local Open Scope string_scope.
Local Open Scope nat_scope.

(* ================================================================== *)
(** ** JavaScript primitives *)
(* ================================================================== *)

Module JS.

(** White space in the sense of [String.prototype.trim], restricted to the
    code units below 256: TAB, LF, VT, FF, CR, SP and NBSP. *)
Definition isWhiteSpace (c : ascii) : bool :=
  let n := nat_of_ascii c in
  ((9 <=? n) && (n <=? 13)) || (n =? 32) || (n =? 160).

Fixpoint trimStart (s : string) : string :=
  match s with
  | EmptyString => EmptyString
  | String c r => if isWhiteSpace c then trimStart r else s
  end.

Fixpoint trimEnd (s : string) : string :=
  match s with
  | EmptyString => EmptyString
  | String c r =>
      match trimEnd r with
      | EmptyString => if isWhiteSpace c then EmptyString else String c EmptyString
      | r' => String c r'
      end
  end.

Definition trim (s : string) : string := trimEnd (trimStart s).

(** [String.prototype.toLowerCase] on code units below 256. *)
Definition lowerChar (c : ascii) : ascii :=
  let n := nat_of_ascii c in
  if ((65 <=? n) && (n <=? 90))
     || ((192 <=? n) && (n <=? 222) && negb (n =? 215))
  then ascii_of_nat (n + 32) else c.

Fixpoint toLowerCase (s : string) : string :=
  match s with
  | EmptyString => EmptyString
  | String c r => String (lowerChar c) (toLowerCase r)
  end.

(** [s.includes(pat)]. *)
Fixpoint includes (s pat : string) : bool :=
  prefix pat s ||
  match s with
  | EmptyString => false
  | String _ r => includes r pat
  end.

(** [s.slice(0, n)] on strings. *)
Definition sliceStr (n : nat) (s : string) : string := substring 0 n s.

(** [a.slice(0, n)] on arrays. *)
Definition slice {A : Type} (n : nat) (l : list A) : list A := firstn n l.

(** [a.join(sep)]. *)
Definition join (sep : string) (l : list string) : string := String.concat sep l.

(** A number inside a template literal. *)
Definition numStr (n : nat) : string := NilZero.string_of_uint (Nat.to_uint n).

(** Truthiness of a string: only the empty string is falsy. *)
Definition truthy (s : string) : bool := negb (String.eqb s EmptyString).

(** [a || b] on strings. *)
Definition orElse (a b : string) : string := if truthy a then a else b.

(** [a || b] where [a] may be [null] or [undefined]. *)
Definition orElseOpt (a : option string) (b : string) : string :=
  match a with
  | Some s => orElse s b
  | None => b
  end.

(** The double quote, and a value between double quotes as the templates
    write it. *)
Definition dq : string := String (ascii_of_nat 34) EmptyString.
Definition quoted (s : string) : string := dq ++ s ++ dq.

End JS.

(* ================================================================== *)
(** ** The page context (snapshot) *)
(* ================================================================== *)

Record Heading := mkHeading { h_level : nat; h_text : string }.

Record Action := mkAction { a_text : string; a_type : string; a_href : option string }.

(** An entry of a form's [inputs]: the content script records four
    properties, the coordinator's inline copy only the type. *)
Inductive FormInput :=
| InputRecord (type name placeholder : string) (required : bool)
| InputType (type : string).

Record Form := mkForm { f_action : string; f_method : string; f_inputs : list FormInput }.

Record PageContext := mkPageContext {
  title : string;
  url : string;
  meta_description : string;
  headings : list Heading;
  actions : list Action;
  forms : list Form;
  selected_text : string;
  paragraphs : option (list string);
  extracted_at : string;
  extraction_time : option nat
}.

(** The snapshot with nothing in it. *)
Definition emptyContext : PageContext :=
  mkPageContext EmptyString EmptyString EmptyString [] [] [] EmptyString None EmptyString None.

(* ================================================================== *)
(** ** The backend: dispatcher, fallback answerer, classifier *)
(* ================================================================== *)

Module Server.
Import JS.

(** *** [getPageType] *)

Definition getPageType (context : PageContext) : string :=
  let title := toLowerCase (orElse (title context) EmptyString) in
  let url := toLowerCase (orElse (url context) EmptyString) in
  let headings := headings context in
  if includes url "docs" || includes url "documentation" then "a documentation page"
  else if includes url "api" then "an API reference page"
  else if includes url "blog" || includes url "article" then "a blog post or article"
  else if includes url "shop" || includes url "store" || includes url "buy"
    then "an e-commerce page"
  else if includes url "login" || includes url "signup"
    then "a login or registration page"
  else if includes title "home" || String.eqb url "/" || includes url "index"
    then "a homepage"
  else
    let headingText := join " " (map (fun h => toLowerCase (h_text h)) headings) in
    if includes headingText "tutorial" || includes headingText "guide"
      then "a tutorial or guide"
    else if includes headingText "about" then "an about page"
    else if includes headingText "contact" then "a contact page"
    else "a web page".

(** *** [analyzeSelectedText] *)

Definition analyzeSelectedText (text : string) (context : PageContext) : string :=
  if String.length text <? 10 then "a short phrase or keyword"
  else if 200 <? String.length text then "a longer passage of text"
  else if includes text "API" || includes text "function" || includes text "code"
    then "technical content related to programming or APIs"
  else if includes text "$" || includes text "price" || includes text "cost"
    then "pricing or cost information"
  else "important content you highlighted".

(** *** The templated answers of [generateContextualAnswer], one per
    keyword class, in the order of the source. *)

Definition pageAnswer (context : PageContext) : string :=
  "This page is titled " ++ quoted (title context)
  ++ " and appears to be " ++ getPageType context ++ ". "
  ++ (if truthy (meta_description context)
      then "The page description states: " ++ quoted (meta_description context) ++ ". "
      else EmptyString)
  ++ "It contains " ++ numStr (List.length (headings context))
  ++ " main headings and " ++ numStr (List.length (actions context))
  ++ " interactive elements like buttons and links.".

Definition titleAnswer (context : PageContext) : string :=
  "The page title is " ++ quoted (title context)
  ++ ". This gives us insight into the main topic or purpose of the page.".

Definition urlAnswer (context : PageContext) : string :=
  "The current page URL is: " ++ url context ++ ". "
  ++ (if 0 <? List.length (actions context)
      then "The page also contains " ++ numStr (List.length (actions context))
           ++ " clickable elements including buttons and links."
      else EmptyString).

Definition headingAnswer (context : PageContext) : string :=
  let headings := headings context in
  if 0 <? List.length headings then
    let headingText := join ", " (map (fun h => quoted (h_text h)) (slice 5 headings)) in
    "The page has " ++ numStr (List.length headings)
    ++ " main headings. The first few are: " ++ headingText
    ++ ". These headings help organize the content into different sections."
  else
    "This page doesn't appear to have clear section headings, which might indicate it's a simple page or uses a different content structure.".

Definition actionAnswer (context : PageContext) : string :=
  let actions := actions context in
  if 0 <? List.length actions then
    let buttonActions := slice 3 (filter (fun a => String.eqb (a_type a) "button") actions) in
    let linkActions := slice 3 (filter (fun a => String.eqb (a_type a) "link") actions) in
    let response := "The page has " ++ numStr (List.length actions) ++ " interactive elements. " in
    let response :=
      if 0 <? List.length buttonActions
      then response ++ "Buttons include: "
           ++ join ", " (map (fun a => quoted (a_text a)) buttonActions) ++ ". "
      else response in
    let response :=
      if 0 <? List.length linkActions
      then response ++ "Links include: "
           ++ join ", " (map (fun a => quoted (a_text a)) linkActions) ++ "."
      else response in
    response
  else
    "This page doesn't appear to have many interactive buttons or clickable elements. It might be primarily informational content.".

Definition selectionAnswer (context : PageContext) : string :=
  let selectedText := selected_text context in
  "You have selected the text: " ++ quoted selectedText
  ++ ". This appears to be " ++ analyzeSelectedText selectedText context
  ++ ". Would you like me to explain this content in more detail?".

Definition summaryAnswer (context : PageContext) : string :=
  let headings := headings context in
  "Based on the page context, this appears to be " ++ getPageType context
  ++ " titled " ++ quoted (title context) ++ ". "
  ++ orElse (meta_description context)
       "The page contains organized content with multiple sections and interactive elements."
  ++ " "
  ++ (if 0 <? List.length headings
      then "The main topics covered include sections on "
           ++ join ", " (map (fun h => toLowerCase (h_text h)) (slice 3 headings)) ++ "."
      else EmptyString).

Definition helpAnswer (context : PageContext) : string :=
  let headings := headings context in
  let actions := actions context in
  let helpfulActions :=
    filter (fun a =>
              includes (toLowerCase (a_text a)) "help"
              || includes (toLowerCase (a_text a)) "support"
              || includes (toLowerCase (a_text a)) "guide"
              || includes (toLowerCase (a_text a)) "tutorial") actions in
  if (0 <? List.length actions) && (0 <? List.length helpfulActions) then
    "For help with this page, you can try clicking on: "
    ++ join ", " (map (fun a => quoted (a_text a)) helpfulActions)
    ++ ". The page also has " ++ numStr (List.length actions)
    ++ " total interactive elements that might provide additional assistance."
  else
    "To get help with this page content, look for sections titled "
    ++ orElse
         (join ", "
            (map (fun h => quoted (h_text h))
               (filter (fun h =>
                          includes (toLowerCase (h_text h)) "help"
                          || includes (toLowerCase (h_text h)) "guide") headings)))
         "help or support"
    ++ ". "
    ++ (if 0 <? List.length actions
        then "You can also try the " ++ numStr (List.length actions)
             ++ " interactive elements on the page."
        else EmptyString).

Definition defaultAnswer (context : PageContext) : string :=
  "Based on the page " ++ quoted (title context) ++ ", I can see "
  ++ numStr (List.length (headings context)) ++ " main sections and "
  ++ numStr (List.length (actions context)) ++ " interactive elements. "
  ++ (if truthy (selected_text context)
      then "You've selected: " ++ quoted (selected_text context) ++ ". "
      else EmptyString)
  ++ "Could you be more specific about what you'd like to know about this page? I can help explain the content, navigation options, or specific sections.".

(** *** [generateContextualAnswer]: the fallback answerer *)

Definition generateContextualAnswer (question : string) (context : PageContext) : string :=
  let questionLower := toLowerCase question in
  let selectedText := selected_text context in
  if includes questionLower "what" && includes questionLower "page" then
    pageAnswer context
  else if includes questionLower "title" then
    titleAnswer context
  else if includes questionLower "url" || includes questionLower "link" then
    urlAnswer context
  else if includes questionLower "heading" || includes questionLower "section" then
    headingAnswer context
  else if includes questionLower "button" || includes questionLower "click"
          || includes questionLower "action" then
    actionAnswer context
  else if truthy selectedText
          && (includes questionLower "selected" || includes questionLower "highlight") then
    selectionAnswer context
  else if includes questionLower "summary" || includes questionLower "about" then
    summaryAnswer context
  else if includes questionLower "help" || includes questionLower "how" then
    helpAnswer context
  else
    defaultAnswer context.

(** *** [analyzePageContext]: the classifier *)

Record ContentStructure := mkContentStructure {
  cs_headings : nat; cs_actions : nat; cs_forms : nat }.

Record Analysis := mkAnalysis {
  pageType : string;
  complexity : string;
  interactivity : string;
  hasSelectedContent : bool;
  contentStructure : ContentStructure
}.

Definition analyzePageContext (context : PageContext) : Analysis :=
  {| pageType := getPageType context;
     complexity :=
       if 5 <? List.length (headings context) then "high"
       else if 2 <? List.length (headings context) then "medium" else "low";
     interactivity :=
       if 10 <? List.length (actions context) then "high"
       else if 3 <? List.length (actions context) then "medium" else "low";
     hasSelectedContent := truthy (selected_text context);
     contentStructure :=
       {| cs_headings := List.length (headings context);
          cs_actions := List.length (actions context);
          cs_forms := List.length (forms context) |} |}.

(** *** [generateAIResponse]: the dispatcher

    The remote capability is the chat-completion call of the OpenAI
    client.  Its promise either rejects (the client raises on a timeout, on
    a non-success status and on a body it cannot parse) or resolves to a
    parsed body, of which the code reads [choices[0].message.content]. *)

Inductive RemoteError :=
| Timeout
| HttpStatus (status : nat)
| UnparsableBody.

Record Message := mkMessage { content : option string }.
Record Choice := mkChoice { message : option Message }.
Record ChatCompletion := mkChatCompletion { choices : option (list Choice) }.

Inductive RemoteOutcome :=
| Rejected (e : RemoteError)
| Resolved (response : ChatCompletion).

(** What a block of code does: it returns a value or throws. *)
Inductive Exn :=
| RemoteFailure (e : RemoteError)
| TypeError.

Inductive Completion (A : Type) :=
| Return (a : A)
| Throw (e : Exn).
Arguments Return {A} a.
Arguments Throw {A} e.

Definition nl : string := String (ascii_of_nat 10) EmptyString.

(** The prompt sent to the model. *)
Definition buildPrompt (question : string) (context : PageContext) : string :=
  "You are ArkAngel, a helpful AI assistant that answers questions about web pages. Based on the page context provided below, please answer the user's question in a clear, helpful way."
  ++ nl ++ nl
  ++ "Page Context:" ++ nl
  ++ "- Title: " ++ title context ++ nl
  ++ "- URL: " ++ url context ++ nl
  ++ "- Meta Description: " ++ orElse (meta_description context) "None provided" ++ nl
  ++ "- Main Headings: "
  ++ orElse (join ", " (map (fun h => "H" ++ numStr (h_level h) ++ ": " ++ h_text h)
                          (headings context))) "None" ++ nl
  ++ "- Interactive Elements: "
  ++ orElse (join ", " (map (fun a => a_type a ++ ": " ++ quoted (a_text a))
                          (actions context))) "None" ++ nl
  ++ "- Forms: " ++ numStr (List.length (forms context)) ++ " form(s) detected" ++ nl
  ++ (if truthy (selected_text context)
      then "- Selected Text: " ++ quoted (selected_text context) else EmptyString)
  ++ nl ++ nl
  ++ "User Question: " ++ question ++ nl ++ nl
  ++ "Please provide a helpful, accurate answer based on this page context. If the question can't be answered from the available context, explain what information is available and suggest what the user might want to know about this page.".

(** [response.choices[0].message.content || "I couldn't ..."]: reading a
    property of [undefined] throws a [TypeError]. *)
Definition readContent (response : ChatCompletion) : Completion string :=
  match choices response with
  | None => Throw TypeError
  | Some cs =>
      match nth_error cs 0 with
      | None => Throw TypeError
      | Some choice =>
          match message choice with
          | None => Throw TypeError
          | Some m =>
              Return (orElseOpt (content m)
                        "I couldn't generate a response. Please try again.")
          end
      end
  end.

(** The body of the [try] block. *)
Definition tryBody (openai : string -> RemoteOutcome)
    (question : string) (context : PageContext) : Completion string :=
  let prompt := buildPrompt question context in
  match openai prompt with
  | Rejected e => Throw (RemoteFailure e)
  | Resolved response => readContent response
  end.

(** [try { ... } catch (error) { return generateContextualAnswer(...) }]. *)
Definition generateAIResponse (openai : string -> RemoteOutcome)
    (question : string) (context : PageContext) : Completion string :=
  match tryBody openai question context with
  | Return answer => Return answer
  | Throw _ => Return (generateContextualAnswer question context)
  end.

(** A parsed body is malformed when it lacks the [choices[0].message] the
    code reads.  A message whose [content] is [null] or empty is a
    well-formed reply (the field is nullable) and is answered by the fixed
    apology of [readContent]. *)
Definition malformed (response : ChatCompletion) : bool :=
  match choices response with
  | None => true
  | Some [] => true
  | Some (choice :: _) =>
      match message choice with
      | None => true
      | Some _ => false
      end
  end.

(** The remote call fails: the promise rejects (timeout, non-success
    status, unparsable body) or resolves to a malformed body. *)
Definition remoteCallFails (o : RemoteOutcome) : bool :=
  match o with
  | Rejected _ => true
  | Resolved response => malformed response
  end.

End Server.

(* ================================================================== *)
(** ** The document as the extractor sees it *)
(* ================================================================== *)

Module DOM.

(** A form control, with the properties [extractPageContext] reads. *)
Record Control := mkControl {
  c_tagName : string;
  c_type : option string;
  c_name : option string;
  c_placeholder : option string;
  c_required : bool
}.

(** An element, with the properties [extractPageContext] reads.  For a
    form, [controls] is [form.querySelectorAll('input, select, textarea')]. *)
Record Element := mkElement {
  tagName : string;
  textContent : string;
  value : option string;
  getAttribute : string -> option string;
  href : option string;
  type : option string;
  action : string;
  method : string;
  controls : list Control
}.

(** [querySelectorAll] returns the matching elements in document order. *)
Record Document := mkDocument {
  document_title : string;
  location_href : string;
  metaDescriptionContent : option string;
  querySelectorAll : string -> list Element;
  getSelection : string
}.

(** [s.charAt(1)]. *)
Definition charAt1 (s : string) : string := substring 1 1 s.

(** [parseInt] of a one-character string; the tag names the heading
    selector matches have a digit there. *)
Definition parseInt (s : string) : nat :=
  match s with
  | String c _ =>
      let n := nat_of_ascii c in
      if (48 <=? n) && (n <=? 57) then n - 48 else 0
  | EmptyString => 0
  end.

End DOM.

(* ================================================================== *)
(** ** [extension/content.js] *)
(* ================================================================== *)

Module Content.
Import JS.

Definition headingsSelector : string := "h1, h2, h3, h4, h5, h6".
Definition actionsSelector : string :=
  "button, a[href], [role=" ++ dq ++ "button" ++ dq ++ "], input[type="
  ++ dq ++ "submit" ++ dq ++ "], input[type=" ++ dq ++ "button" ++ dq ++ "]".

Definition toHeading (h : DOM.Element) : Heading :=
  {| h_level := DOM.parseInt (DOM.charAt1 (DOM.tagName h));
     h_text := trim (DOM.textContent h) |}.

Definition keepHeading (h : Heading) : bool :=
  (0 <? String.length (h_text h)) && (String.length (h_text h) <? 200).

Definition extractHeadings (els : list DOM.Element) : list Heading :=
  filter keepHeading (map toHeading (slice 10 els)).

Definition toAction (el : DOM.Element) : Action :=
  let text :=
    trim (orElse (DOM.textContent el)
            (orElseOpt (DOM.value el)
               (orElseOpt (DOM.getAttribute el "aria-label") EmptyString))) in
  let href :=
    match DOM.href el with
    | Some h => if truthy h then Some h else None
    | None => None
    end in
  {| a_text := sliceStr 50 text;
     a_type :=
       if String.eqb (toLowerCase (DOM.tagName el)) "button"
          || match DOM.type el with
             | Some t => String.eqb t "button" || String.eqb t "submit"
             | None => false
             end
       then "button" else "link";
     a_href := href |}.

Definition keepAction (a : Action) : bool :=
  (0 <? String.length (a_text a)) && (2 <? String.length (a_text a)).

Definition extractActions (els : list DOM.Element) : list Action :=
  filter keepAction (map toAction (slice 20 els)).

Definition toInput (input : DOM.Control) : FormInput :=
  InputRecord
    (orElseOpt (DOM.c_type input) (toLowerCase (DOM.c_tagName input)))
    (orElseOpt (DOM.c_name input) EmptyString)
    (orElseOpt (DOM.c_placeholder input) EmptyString)
    (DOM.c_required input).

Definition toForm (doc : DOM.Document) (form : DOM.Element) : Form :=
  {| f_action := orElse (DOM.action form) (DOM.location_href doc);
     f_method := orElse (DOM.method form) "GET";
     f_inputs := map toInput (DOM.controls form) |}.

Definition extractForms (doc : DOM.Document) (els : list DOM.Element) : list Form :=
  map (toForm doc) (slice 5 els).

Definition keepParagraph (text : string) : bool :=
  (20 <? String.length text) && (String.length text <? 500).

(** [extractPageContext], with the clock readings as arguments: [now] is
    [new Date().toISOString()] and [elapsed] the rounded duration. *)
Definition extractPageContext (doc : DOM.Document) (now : string) (elapsed : nat)
  : PageContext :=
  {| title := orElse (DOM.document_title doc) EmptyString;
     url := DOM.location_href doc;
     meta_description := orElseOpt (DOM.metaDescriptionContent doc) EmptyString;
     headings := extractHeadings (DOM.querySelectorAll doc headingsSelector);
     actions := extractActions (DOM.querySelectorAll doc actionsSelector);
     forms := extractForms doc (DOM.querySelectorAll doc "form");
     selected_text := trim (DOM.getSelection doc);
     paragraphs :=
       Some (filter keepParagraph
               (map (fun p => trim (DOM.textContent p))
                  (slice 5 (DOM.querySelectorAll doc "p"))));
     extracted_at := now;
     extraction_time := Some elapsed |}.

End Content.

(* ================================================================== *)
(** ** [extension/background.js]: the coordinator *)
(* ================================================================== *)

Module Background.
Import JS.

(** *** The inline copy of [extractPageContext] *)

Definition headingsSelector : string := "h1, h2, h3, h4, h5, h6".
Definition actionsSelector : string :=
  "button, a[href], [role=" ++ dq ++ "button" ++ dq ++ "]".

Definition toHeading (h : DOM.Element) : Heading :=
  {| h_level := DOM.parseInt (DOM.charAt1 (DOM.tagName h));
     h_text := trim (DOM.textContent h) |}.

Definition keepHeading (h : Heading) : bool := 0 <? String.length (h_text h).

Definition extractHeadings (els : list DOM.Element) : list Heading :=
  filter keepHeading (map toHeading (slice 10 els)).

Definition toAction (el : DOM.Element) : Action :=
  {| a_text :=
       sliceStr 50
         (trim (orElse (DOM.textContent el)
                  (orElseOpt (DOM.getAttribute el "aria-label") EmptyString)));
     a_type :=
       if String.eqb (toLowerCase (DOM.tagName el)) "button" then "button" else "link";
     a_href := None |}.

Definition keepAction (a : Action) : bool := 0 <? String.length (a_text a).

Definition extractActions (els : list DOM.Element) : list Action :=
  filter keepAction (map toAction (slice 20 els)).

Definition toInput (input : DOM.Control) : FormInput :=
  InputType (orElseOpt (DOM.c_type input) (toLowerCase (DOM.c_tagName input))).

Definition toForm (doc : DOM.Document) (form : DOM.Element) : Form :=
  {| f_action := orElse (DOM.action form) (DOM.location_href doc);
     f_method := orElse (DOM.method form) "GET";
     f_inputs := map toInput (DOM.controls form) |}.

Definition extractForms (doc : DOM.Document) (els : list DOM.Element) : list Form :=
  map (toForm doc) (slice 5 els).

Definition extractPageContext (doc : DOM.Document) (now : string) : PageContext :=
  {| title := orElse (DOM.document_title doc) EmptyString;
     url := DOM.location_href doc;
     meta_description := orElseOpt (DOM.metaDescriptionContent doc) EmptyString;
     headings := extractHeadings (DOM.querySelectorAll doc headingsSelector);
     actions := extractActions (DOM.querySelectorAll doc actionsSelector);
     forms := extractForms doc (DOM.querySelectorAll doc "form");
     selected_text := trim (DOM.getSelection doc);
     paragraphs := None;
     extracted_at := now;
     extraction_time := None |}.

(** *** The coordinator's state: the two [let] variables of the script *)

(** [{ ...context, tabId, tabUrl }]. *)
Record StoredContext := mkStoredContext {
  context : PageContext;
  tabId : nat;
  tabUrl : string
}.

Record State := mkState {
  currentContext : option StoredContext;
  currentTabId : option nat
}.

Definition initialState : State :=
  {| currentContext := None; currentTabId := None |}.

(** [sender.tab], absent for a message that no tab sent. *)
Record Tab := mkTab { tab_id : nat; tab_url : string }.
Record Sender := mkSender { sender_tab : option Tab }.

(** *** [chrome.tabs.onActivated]

    The listener sets [currentTabId], awaits [sidePanel.setOptions], and
    clears [currentContext] only when it is resumed. *)
Definition onActivated (activeTabId : nat) (s : State) : State :=
  {| currentContext := currentContext s; currentTabId := Some activeTabId |}.

Definition onActivated_resume (s : State) : State :=
  {| currentContext := None; currentTabId := currentTabId s |}.

(** *** [chrome.tabs.onUpdated] *)
Definition onUpdated (updatedTabId : nat) (status : string) (active : bool) (s : State)
  : State :=
  if String.eqb status "complete" && active then
    {| currentContext := None; currentTabId := Some updatedTabId |}
  else s.

(** *** [handleContextExtracted] *)
Definition handleContextExtracted (requestContext : PageContext) (sender : Sender)
    (s : State) : State :=
  match sender_tab sender with
  | Some tab =>
      match currentTabId s with
      | Some current =>
          if tab_id tab =? current then
            {| currentContext :=
                 Some {| context := requestContext;
                         tabId := tab_id tab;
                         tabUrl := tab_url tab |};
               currentTabId := currentTabId s |}
          else s
      | None => s
      end
  | None => s
  end.

(** *** [handleSelectionChanged] *)
Definition setSelectedText (c : PageContext) (selectedText : string) : PageContext :=
  {| title := title c; url := url c; meta_description := meta_description c;
     headings := headings c; actions := actions c; forms := forms c;
     selected_text := selectedText;
     paragraphs := paragraphs c; extracted_at := extracted_at c;
     extraction_time := extraction_time c |}.

Definition handleSelectionChanged (selectedText : string) (sender : Sender) (s : State)
  : State :=
  match sender_tab sender, currentTabId s, currentContext s with
  | Some tab, Some current, Some stored =>
      if tab_id tab =? current then
        {| currentContext :=
             Some {| context := setSelectedText (context stored) selectedText;
                     tabId := tabId stored;
                     tabUrl := tabUrl stored |};
           currentTabId := currentTabId s |}
      else s
  | _, _, _ => s
  end.

(** *** [extractContextFromTab], resumed with the script's result

    After its two awaits the function stores the result under the tab id
    it was called with. *)
Definition extractContextFromTab_resume (requestedTabId : nat) (tabUrlNow : string)
    (result : option PageContext) (s : State) : State :=
  match result with
  | Some c =>
      {| currentContext :=
           Some {| context := c; tabId := requestedTabId; tabUrl := tabUrlNow |};
         currentTabId := currentTabId s |}
  | None => s
  end.

(** *** The events the coordinator reacts to, and one step on each *)
Inductive Event :=
| Activated (activeTabId : nat)
| ActivatedResumed
| Updated (updatedTabId : nat) (status : string) (active : bool)
| ContextExtracted (requestContext : PageContext) (sender : Sender)
| SelectionChanged (selectedText : string) (sender : Sender)
| GetContext
| ScriptResult (requestedTabId : nat) (tabUrlNow : string) (result : option PageContext).

Definition step (s : State) (e : Event) : State :=
  match e with
  | Activated t => onActivated t s
  | ActivatedResumed => onActivated_resume s
  | Updated t status active => onUpdated t status active s
  | ContextExtracted c sender => handleContextExtracted c sender s
  | SelectionChanged text sender => handleSelectionChanged text sender s
  | GetContext => s
  | ScriptResult t u r => extractContextFromTab_resume t u r s
  end.

Definition run (s : State) (es : list Event) : State := fold_left step es s.

(** The answer to a [getContext] request. *)
Definition getContext (s : State) : option StoredContext := currentContext s.

(** [sender.tab && sender.tab.id === currentTabId]. *)
Definition fromCurrentTab (sender : Sender) (s : State) : bool :=
  match sender_tab sender, currentTabId s with
  | Some tab, Some current => tab_id tab =? current
  | _, _ => false
  end.

(** The events that invalidate the tab state: a tab switch, and the
    completion of a navigation in the active tab. *)
Definition invalidates (e : Event) : bool :=
  match e with
  | Activated _ => true
  | Updated _ status active => String.eqb status "complete" && active
  | _ => false
  end.

(** The specification's stale-result rule.  An extraction starts after the
    events [before]; the events [between] reach the coordinator while it is
    under way; then its result arrives.  When one of the events in between
    invalidated the tab state, the arrival is to leave the stored snapshot
    as it was. *)
Definition staleResultsDiscarded : Prop :=
  forall (before between : list Event) (c : PageContext) (sender : Sender),
    existsb invalidates between = true ->
    let s := run initialState (List.app before between) in
    currentContext (step s (ContextExtracted c sender)) = currentContext s.

End Background.

(* ================================================================== *)
(** ** [extension/sidepanel.js]: the panel application *)
(* ================================================================== *)

Module SidePanel.
Import JS.

Set Implicit Arguments.

Record ConversationItem := mkItem {
  item_question : string;
  item_answer : string;
  item_timestamp : string
}.

(** [this.state]; the panel does not look inside its page context, so its
    type is left open. *)
Record State (Ctx : Type) := mkState {
  pageContext : option Ctx;
  question : string;
  answer : option string;
  isLoading : bool;
  isJsonExpanded : bool;
  connectionStatus : string;
  error : option string;
  conversationHistory : list ConversationItem
}.

(** What a handler asks of the outside world. *)
Inductive Effect (Ctx : Type) :=
| FetchAsk (body_question : string) (body_context : Ctx)
| FetchHealth
| ExecuteScript
| ClipboardWrite (text : string).
Arguments FetchHealth {Ctx}.
Arguments ExecuteScript {Ctx}.
Arguments ClipboardWrite {Ctx} text.

Section App.
Variable Ctx : Type.
Local Abbreviation State := (State Ctx).
Local Abbreviation Effect := (Effect Ctx).

Definition initialState : State :=
  {| pageContext := None; question := EmptyString; answer := None;
     isLoading := false; isJsonExpanded := false;
     connectionStatus := "disconnected"; error := None;
     conversationHistory := [] |}.

(** *** [submitQuestion], up to its [await fetch(...)] *)
Definition submitQuestion (s : State) : State * list Effect :=
  if negb (truthy (trim (question s))) then (s, [])
  else
    match pageContext s with
    | None => (s, [])
    | Some ctx =>
        ({| pageContext := pageContext s; question := question s;
            answer := answer s; isLoading := true;
            isJsonExpanded := isJsonExpanded s;
            connectionStatus := connectionStatus s; error := None;
            conversationHistory := conversationHistory s |},
         [FetchAsk (question s) ctx])
    end.

(** How the awaited request ends: [fetch] rejects, or a response
    arrives whose body is [None] when [response.json()] rejects and
    otherwise carries [data.answer]. *)
Inductive AskOutcome :=
| FetchRejected
| Responded (ok : bool) (status : nat) (body : option string).

Definition failureMessage : string :=
  "Failed to get response from backend. Please check if the server is running.".

(** *** [submitQuestion], resumed with the outcome; [now] is
    [new Date().toISOString()].  The history item is built from the
    state as it is when the function resumes. *)
Definition submitQuestion_resume (outcome : AskOutcome) (now : string) (s : State)
  : State :=
  match outcome with
  | Responded true _ (Some data_answer) =>
      let newHistoryItem :=
        {| item_question := question s;
           item_answer := data_answer;
           item_timestamp := now |} in
      {| pageContext := pageContext s; question := EmptyString;
         answer := Some data_answer; isLoading := false;
         isJsonExpanded := isJsonExpanded s;
         connectionStatus := connectionStatus s; error := error s;
         conversationHistory :=
           newHistoryItem :: slice 9 (conversationHistory s) |}
  | _ =>
      {| pageContext := pageContext s; question := question s;
         answer := answer s; isLoading := false;
         isJsonExpanded := isJsonExpanded s;
         connectionStatus := connectionStatus s;
         error := Some failureMessage;
         conversationHistory := conversationHistory s |}
  end.

(** *** [refreshContext] and [checkBackendConnection], resumed *)
Inductive ScriptOutcome :=
| ScriptThrew
| ScriptReturned (result : option Ctx).

Definition refreshContext_resume (outcome : ScriptOutcome) (s : State) : State :=
  match outcome with
  | ScriptReturned (Some ctx) =>
      {| pageContext := Some ctx; question := question s; answer := answer s;
         isLoading := isLoading s; isJsonExpanded := isJsonExpanded s;
         connectionStatus := connectionStatus s; error := error s;
         conversationHistory := conversationHistory s |}
  | ScriptReturned None => s
  | ScriptThrew =>
      {| pageContext := pageContext s; question := question s; answer := answer s;
         isLoading := isLoading s; isJsonExpanded := isJsonExpanded s;
         connectionStatus := connectionStatus s;
         error := Some "Failed to extract page context";
         conversationHistory := conversationHistory s |}
  end.

Definition checkBackendConnection_resume (healthy : bool) (s : State) : State :=
  {| pageContext := pageContext s; question := question s; answer := answer s;
     isLoading := isLoading s; isJsonExpanded := isJsonExpanded s;
     connectionStatus := if healthy then "connected" else "disconnected";
     error :=
       if healthy then None
       else Some "Cannot connect to local backend server. Make sure the server is running on http://localhost:5000";
     conversationHistory := conversationHistory s |}.

(** *** [bindEvents] *)

(** The element an event is aimed at, with the two data attributes the
    listeners match on. *)
Record Target := mkTarget {
  data_action : option string;
  data_field : option string
}.

Definition matchesAction (t : Target) (name : string) : bool :=
  match data_action t with
  | Some a => String.eqb a name
  | None => false
  end.

Definition matchesField (t : Target) (name : string) : bool :=
  match data_field t with
  | Some f => String.eqb f name
  | None => false
  end.

Definition onClick (target : Target) (s : State) : State * list Effect :=
  if matchesAction target "refresh-context" then (s, [ExecuteScript])
  else if matchesAction target "toggle-json" then
    ({| pageContext := pageContext s; question := question s; answer := answer s;
        isLoading := isLoading s; isJsonExpanded := negb (isJsonExpanded s);
        connectionStatus := connectionStatus s; error := error s;
        conversationHistory := conversationHistory s |}, [])
  else if matchesAction target "submit-question" then submitQuestion s
  else if matchesAction target "retry-connection" then (s, [FetchHealth])
  else if matchesAction target "clear-history" then
    ({| pageContext := pageContext s; question := question s; answer := answer s;
        isLoading := isLoading s; isJsonExpanded := isJsonExpanded s;
        connectionStatus := connectionStatus s; error := error s;
        conversationHistory := [] |}, [])
  else if matchesAction target "copy-answer" then
    match answer s with
    | Some a => if truthy a then (s, [ClipboardWrite a]) else (s, [])
    | None => (s, [])
    end
  else (s, []).

Definition onInput (target : Target) (value : string) (s : State)
  : State * list Effect :=
  if matchesField target "question" then
    ({| pageContext := pageContext s; question := value; answer := answer s;
        isLoading := isLoading s; isJsonExpanded := isJsonExpanded s;
        connectionStatus := connectionStatus s; error := error s;
        conversationHistory := conversationHistory s |}, [])
  else (s, []).

Definition onKeydown (target : Target) (key : string) (ctrlKey : bool) (s : State)
  : State * list Effect :=
  if matchesField target "question" && String.eqb key "Enter" && ctrlKey
  then submitQuestion s
  else (s, []).

(** *** [render]: the submit button carries [disabled] in these states *)
Definition submitDisabled (s : State) : bool :=
  negb (truthy (trim (question s))) || isLoading s.

Definition submitButton : Target :=
  {| data_action := Some "submit-question"; data_field := None |}.

Definition questionField : Target :=
  {| data_action := None; data_field := Some "question" |}.

(** *** User events as the page delivers them: a click on a disabled
    button raises no click event. *)
Inductive UserEvent :=
| Click (target : Target)
| Input (target : Target) (value : string)
| Keydown (target : Target) (key : string) (ctrlKey : bool).

Definition deliver (e : UserEvent) (s : State) : State * list Effect :=
  match e with
  | Click target =>
      if matchesAction target "submit-question" && submitDisabled s then (s, [])
      else onClick target s
  | Input target value => onInput target value s
  | Keydown target key ctrlKey => onKeydown target key ctrlKey s
  end.

(** *** Everything that can happen to the panel *)
Inductive Event :=
| User (e : UserEvent)
| AskDone (outcome : AskOutcome) (now : string)
| ScriptDone (outcome : ScriptOutcome)
| HealthDone (healthy : bool).

Definition step (s : State) (e : Event) : State :=
  match e with
  | User u => fst (deliver u s)
  | AskDone outcome now => submitQuestion_resume outcome now s
  | ScriptDone outcome => refreshContext_resume outcome s
  | HealthDone healthy => checkBackendConnection_resume healthy s
  end.

Definition run (s : State) (es : list Event) : State := fold_left step es s.

(** One successful submission: the user types [q] and asks, and the
    backend answers [a] at time [now]. *)
Definition submission (s : State) (qa : string * string * string) : State :=
  let '(q, a, now) := qa in
  run s [User (Input questionField q);
         User (Click submitButton);
         AskDone (Responded true 200 (Some a)) now].

Definition entryOf (qa : string * string * string) : ConversationItem :=
  let '(q, a, now) := qa in
  {| item_question := q; item_answer := a; item_timestamp := now |}.

Definition submissions (s : State) (rounds : list (string * string * string)) : State :=
  fold_left submission rounds s.

(** A state in which a question can be asked, and a round whose question
    passes the guard of [submitQuestion]. *)
Definition ready (s : State) : Prop :=
  pageContext s <> None /\ isLoading s = false.

Definition askable (qa : string * string * string) : Prop :=
  truthy (trim (fst (fst qa))) = true.

End App.

Unset Implicit Arguments.

End SidePanel.

(* ================================================================== *)
(** ** [client/src/pages/extension-panel.tsx]: the demo panel *)
(* ================================================================== *)

Module ExtensionPanel.
Import JS.
Import SidePanel.

(** The component's state hooks, gathered in the record of the side panel. *)
Definition State := SidePanel.State PageContext.
Definition Effect := SidePanel.Effect PageContext.

(** [submitQuestion], up to its [await fetch(...)]. *)
Definition submitQuestion (s : State) : State * list Effect :=
  if negb (truthy (trim (question s))) then (s, [])
  else
    match pageContext s with
    | None => (s, [])
    | Some ctx =>
        ({| pageContext := pageContext s; question := question s;
            answer := answer s; isLoading := true;
            isJsonExpanded := isJsonExpanded s;
            connectionStatus := connectionStatus s; error := None;
            conversationHistory := conversationHistory s |},
         [FetchAsk (question s) ctx])
    end.

(** [submitQuestion], resumed: [asked] is the question its closure holds,
    the history is updated from the previous one, and [finally] lowers the
    loading flag. *)
Definition submitQuestion_resume (asked : string) (outcome : AskOutcome) (now : string)
    (s : State) : State :=
  match outcome with
  | Responded true _ (Some data_answer) =>
      let newHistoryItem :=
        {| item_question := asked; item_answer := data_answer; item_timestamp := now |} in
      {| pageContext := pageContext s; question := EmptyString;
         answer := Some data_answer; isLoading := false;
         isJsonExpanded := isJsonExpanded s;
         connectionStatus := connectionStatus s; error := error s;
         conversationHistory := newHistoryItem :: slice 9 (conversationHistory s) |}
  | _ =>
      {| pageContext := pageContext s; question := question s;
         answer := answer s; isLoading := false;
         isJsonExpanded := isJsonExpanded s;
         connectionStatus := connectionStatus s;
         error := Some failureMessage;
         conversationHistory := conversationHistory s |}
  end.

(** [handleKeyDown], bound to the question's text area. *)
Definition handleKeyDown (key : string) (ctrlKey : bool) (s : State)
  : State * list Effect :=
  if String.eqb key "Enter" && ctrlKey then submitQuestion s else (s, []).

(** The [disabled] property of the Ask button. *)
Definition submitDisabled (s : State) : bool :=
  negb (truthy (trim (question s))) || isLoading s.

End ExtensionPanel.

(* ================================================================== *)
(** ** The specification's words, to compare the code with *)
(* ================================================================== *)

Module Spec.
Import JS.
Import Server.

(** The keyword classes of the fallback answerer. *)
Inductive QuestionClass :=
| PageIdentity
| Title
| UrlLinks
| HeadingsSections
| ActionsButtons
| Selection
| Summary
| Help.

(** The fixed priority order of the specification. *)
Definition priorityOrder : list QuestionClass :=
  [PageIdentity; Title; UrlLinks; HeadingsSections; ActionsButtons; Selection; Summary; Help].

(** The keywords of each class. *)
Definition classMatches (questionLower : string) (context : PageContext)
    (k : QuestionClass) : bool :=
  match k with
  | PageIdentity => includes questionLower "what" && includes questionLower "page"
  | Title => includes questionLower "title"
  | UrlLinks => includes questionLower "url" || includes questionLower "link"
  | HeadingsSections => includes questionLower "heading" || includes questionLower "section"
  | ActionsButtons =>
      includes questionLower "button" || includes questionLower "click"
      || includes questionLower "action"
  | Selection =>
      truthy (selected_text context)
      && (includes questionLower "selected" || includes questionLower "highlight")
  | Summary => includes questionLower "summary" || includes questionLower "about"
  | Help => includes questionLower "help" || includes questionLower "how"
  end.

Definition classAnswer (context : PageContext) (k : QuestionClass) : string :=
  match k with
  | PageIdentity => pageAnswer context
  | Title => titleAnswer context
  | UrlLinks => urlAnswer context
  | HeadingsSections => headingAnswer context
  | ActionsButtons => actionAnswer context
  | Selection => selectionAnswer context
  | Summary => summaryAnswer context
  | Help => helpAnswer context
  end.

(** The first class of the priority order that matches decides the
    answer; the generic answer is given when none does. *)
Definition answerByPriority (question : string) (context : PageContext) : string :=
  match find (classMatches (toLowerCase question) context) priorityOrder with
  | Some k => classAnswer context k
  | None => defaultAnswer context
  end.

(** The thresholds of the classifier as the specification words them. *)
Definition spec_complexity (headingCount : nat) : string :=
  if headingCount <? 3 then "low" else if headingCount <? 6 then "medium" else "high".

Definition spec_interactivity (actionCount : nat) : string :=
  if actionCount <? 3 then "low" else if actionCount <=? 10 then "medium" else "high".

(** An empty or white-space-only string. *)
Definition whitespaceOnly (s : string) : bool :=
  forallb JS.isWhiteSpace (list_ascii_of_string s).

(** The invariant of a snapshot: capped sequences, and no heading or action
    with an empty text. *)
Definition wellBounded (c : PageContext) : Prop :=
  List.length (headings c) <= 10
  /\ List.length (actions c) <= 20
  /\ List.length (forms c) <= 5
  /\ Forall (fun h => h_text h <> EmptyString) (headings c)
  /\ Forall (fun a => a_text a <> EmptyString) (actions c).

(** Every entry of [out] is the image of one of the first [n] elements. *)
Definition drawnFromFirst {A B : Type} (n : nat) (f : A -> B)
    (els : list A) (out : list B) : Prop :=
  forall b, In b out -> exists i el, i < n /\ nth_error els i = Some el /\ b = f el.

(** [out] is obtained by cutting [els] to its first [n] elements, converting
    them and only then filtering: nothing past the cut contributes. *)
Definition cutThenFiltered {A B : Type} (n : nat) (f : A -> B) (keep : B -> bool)
    (els : list A) (out : list B) : Prop :=
  out = filter keep (map f (firstn n els))
  /\ drawnFromFirst n f els out
  /\ (forall els', firstn n els' = firstn n els ->
      filter keep (map f (JS.slice n els')) = out).

End Spec.

(* ================================================================== *)
(** ** A sample document *)
(* ================================================================== *)

Module Sample.

Definition element (tag text : string) : DOM.Element :=
  {| DOM.tagName := tag; DOM.textContent := text; DOM.value := None;
     DOM.getAttribute := fun _ => None; DOM.href := None; DOM.type := None;
     DOM.action := EmptyString; DOM.method := EmptyString; DOM.controls := [] |}.

(** A heading element with nothing but white space in it, and one with a
    text. *)
Definition blankHeading : DOM.Element := element "H2" "   ".
Definition lateHeading : DOM.Element := element "H2" "Pricing".

(** Ten blank headings followed by a heading with a text. *)
Definition lateHeadingDocument : DOM.Document :=
  {| DOM.document_title := "Plans";
     DOM.location_href := "https://example.org/plans";
     DOM.metaDescriptionContent := None;
     DOM.querySelectorAll := fun selector =>
       if String.eqb selector "h1, h2, h3, h4, h5, h6"
       then List.app (repeat blankHeading 10) [lateHeading] else [];
     DOM.getSelection := EmptyString |}.

End Sample.

(* ================================================================== *)
(** ** The backend's routes and its other helpers *)
(* ================================================================== *)

Module Routes.
Import JS.
Import Server.

(** *** [buildContextSummary] *)
Definition buildContextSummary (context : PageContext) : string :=
  let parts := [] in
  let parts :=
    if truthy (title context)
    then List.app parts ["Title: " ++ title context] else parts in
  let parts :=
    if truthy (url context)
    then List.app parts ["URL: " ++ url context] else parts in
  let parts :=
    if 0 <? List.length (headings context)
    then List.app parts ["Headings: " ++ join ", " (map h_text (headings context))]
    else parts in
  let parts :=
    if 0 <? List.length (actions context)
    then List.app parts
           ["Interactive elements: " ++ join ", " (map a_text (actions context))]
    else parts in
  let parts :=
    if truthy (selected_text context)
    then List.app parts ["Selected text: " ++ quoted (selected_text context)]
    else parts in
  join " | " parts.

(** *** [generateContextSuggestions] *)
Definition generateContextSuggestions (context : PageContext) : list string :=
  let suggestions := [] in
  let suggestions :=
    match headings context with
    | first :: _ =>
        List.app suggestions
          ["What does the " ++ quoted (h_text first) ++ " section cover?"]
    | [] => suggestions
    end in
  let suggestions :=
    match actions context with
    | firstAction :: _ =>
        List.app suggestions
          ["What happens when I click " ++ quoted (a_text firstAction) ++ "?"]
    | [] => suggestions
    end in
  let suggestions :=
    if truthy (selected_text context)
    then List.app suggestions
           ["Explain the selected text: " ++ dq
            ++ sliceStr 50 (selected_text context) ++ "..." ++ dq]
    else suggestions in
  let suggestions := List.app suggestions ["What is this page about?"] in
  let suggestions := List.app suggestions ["How do I navigate this page?"] in
  slice 5 suggestions.

(** *** [POST /api/ask]

    The parsed body, with its two fields present or not, and the three
    kinds of response the handler sends. *)
Record AskBody := mkAskBody {
  body_question : option string;
  body_context : option PageContext
}.

Record ContextUsed := mkContextUsed {
  used_title : string;
  used_url : string;
  headingsCount : nat;
  actionsCount : nat;
  hasSelectedText : bool
}.

Inductive AskResponse :=
| BadRequest (error message : string)
| Answered (answer : string) (contextUsed : ContextUsed)
| InternalError (error message : string).

Definition statusOf (r : AskResponse) : nat :=
  match r with
  | BadRequest _ _ => 400
  | Answered _ _ => 200
  | InternalError _ _ => 500
  end.

Definition questionRequired : AskResponse :=
  BadRequest "Question is required" "Please provide a question to ask about the page.".

Definition contextRequired : AskResponse :=
  BadRequest "Context is required" "Page context is required to answer questions.".

Definition ask (openai : string -> RemoteOutcome) (body : AskBody) : AskResponse :=
  match body_question body with
  | None => questionRequired
  | Some question =>
      if negb (truthy question) || negb (truthy (trim question)) then questionRequired
      else
        match body_context body with
        | None => contextRequired
        | Some context =>
            match generateAIResponse openai question context with
            | Return answer =>
                Answered answer
                  {| used_title := title context;
                     used_url := url context;
                     headingsCount := List.length (headings context);
                     actionsCount := List.length (actions context);
                     hasSelectedText := truthy (selected_text context) |}
            | Throw _ =>
                InternalError "Internal server error"
                  "Failed to process your question. Please try again."
            end
        end
  end.

(** The labels of [getPageType]. *)
Definition pageTypes : list string :=
  ["a documentation page"; "an API reference page"; "a blog post or article";
   "an e-commerce page"; "a login or registration page"; "a homepage";
   "a tutorial or guide"; "an about page"; "a contact page"; "a web page"].

(** A context whose title, url and heading texts are in lower case. *)
Definition lowerCased (context : PageContext) : PageContext :=
  {| title := toLowerCase (title context);
     url := toLowerCase (url context);
     meta_description := meta_description context;
     headings :=
       map (fun h => {| h_level := h_level h; h_text := toLowerCase (h_text h) |})
         (headings context);
     actions := actions context;
     forms := forms context;
     selected_text := selected_text context;
     paragraphs := paragraphs context;
     extracted_at := extracted_at context;
     extraction_time := extraction_time context |}.

End Routes.

(* ================================================================== *)
(** ** The coordinator's on-demand extraction, the content script's
       selection listener *)
(* ================================================================== *)

Module OnDemand.
Import JS.
Import Background.

(** How an awaited browser call ends. *)
Inductive Awaited (A : Type) :=
| Fulfilled (a : A)
| RejectedWith (message : string).
Arguments Fulfilled {A} a.
Arguments RejectedWith {A} message.

(** [sender.tab?.id || currentTabId]: a missing tab, and the id 0, give way
    to the current tab. *)
Definition requestedTab (sender : Sender) (s : State) : option nat :=
  match sender_tab sender with
  | Some tab => if tab_id tab =? 0 then currentTabId s else Some (tab_id tab)
  | None => currentTabId s
  end.

Definition privileged (tabUrlNow : string) : bool :=
  prefix "chrome://" tabUrlNow || prefix "chrome-extension://" tabUrlNow.

(** [extractContextFromTab]: [tabsGet] and [executeScript] are what the two
    awaited calls yield, [s] is the state when the function stores its
    result.  The error is the message of the exception it throws. *)
Definition extractContextFromTab (requested : option nat)
    (tabsGet : nat -> Awaited Tab)
    (executeScript : nat -> Awaited (option PageContext))
    (s : State) : State * (string + PageContext) :=
  match requested with
  | None => (s, inl "No active tab")
  | Some 0 => (s, inl "No active tab")
  | Some t =>
      match tabsGet t with
      | RejectedWith message => (s, inl message)
      | Fulfilled tab =>
          if privileged (tab_url tab)
          then (s, inl "Cannot access chrome:// or extension pages")
          else
            match executeScript t with
            | RejectedWith message => (s, inl message)
            | Fulfilled None => (s, inl "Failed to extract context")
            | Fulfilled (Some c) =>
                (extractContextFromTab_resume t (tab_url tab) (Some c) s, inr c)
            end
      end
  end.

(** The selection listener of the content script, once its timer fires:
    the text it sends with [selectionChanged], if it sends any. *)
Definition onSelectionChange (doc : DOM.Document) : option string :=
  let selectedText := trim (DOM.getSelection doc) in
  if 0 <? String.length selectedText then Some selectedText else None.

(** The coordinator after the listener has run in a tab. *)
Definition afterSelectionChange (doc : DOM.Document) (sender : Sender) (s : State) : State :=
  match onSelectionChange doc with
  | Some selectedText => handleSelectionChanged selectedText sender s
  | None => s
  end.



End OnDemand.

(* ================================================================== *)
(** ** The side panel's own extractor, its clock, its status *)
(* ================================================================== *)

Module PanelExtras.
Import JS.

(** The context of the side panel's [extractPageContext]: headings are
    plain strings there. *)
Record PanelContext := mkPanelContext {
  p_title : string;
  p_url : string;
  p_meta_description : string;
  p_headings : list string;
  p_actions : list Action;
  p_selected_text : string;
  p_forms : list Form
}.

Definition keepText (text : string) : bool := 0 <? String.length text.

Definition toAction (el : DOM.Element) : Action :=
  {| a_text := sliceStr 50 (trim (DOM.textContent el));
     a_type :=
       if String.eqb (toLowerCase (DOM.tagName el)) "button" then "button" else "link";
     a_href := None |}.

Definition toForm (form : DOM.Element) : Form :=
  {| f_action := DOM.action form;
     f_method := DOM.method form;
     f_inputs :=
       map (fun input =>
              InputType (orElseOpt (DOM.c_type input) (toLowerCase (DOM.c_tagName input))))
         (DOM.controls form) |}.

Definition extractPageContext (doc : DOM.Document) : PanelContext :=
  {| p_title := DOM.document_title doc;
     p_url := DOM.location_href doc;
     p_meta_description := orElseOpt (DOM.metaDescriptionContent doc) EmptyString;
     p_headings :=
       filter keepText
         (map (fun h => trim (DOM.textContent h))
            (slice 10 (DOM.querySelectorAll doc "h1, h2, h3, h4, h5, h6")));
     p_actions :=
       filter (fun action => 0 <? String.length (a_text action))
         (map toAction
            (slice 20 (DOM.querySelectorAll doc Background.actionsSelector)));
     p_selected_text := trim (DOM.getSelection doc);
     p_forms := map toForm (slice 5 (DOM.querySelectorAll doc "form")) |}.

(** [formatTime]: [now] and [time] are the two dates in milliseconds. *)
Definition formatTime (now time : Z) : string :=
  let diffMs := (now - time)%Z in
  let diffMins := (diffMs / 60000)%Z in
  if (diffMins <? 1)%Z then "Just now"
  else if (diffMins <? 60)%Z then
    numStr (Z.to_nat diffMins) ++ " minute"
    ++ (if (1 <? diffMins)%Z then "s" else EmptyString) ++ " ago"
  else
    let diffHours := (diffMins / 60)%Z in
    numStr (Z.to_nat diffHours) ++ " hour"
    ++ (if (1 <? diffHours)%Z then "s" else EmptyString) ++ " ago".


(** The request whose answer is put into the history. *)
Definition askSucceeded (outcome : SidePanel.AskOutcome) : bool :=
  match outcome with
  | SidePanel.Responded true _ (Some _) => true
  | _ => false
  end.

End PanelExtras.

(* ================================================================== *)
(** * Properties *)
(* ================================================================== *)

(** ** Strings *)

Lemma length_append (s t : string) :
  String.length (s ++ t) = String.length s + String.length t.
Proof.
  induction s as [| c s IH]; cbn [append String.length].
  - reflexivity.
  - now rewrite IH.
Qed.

Lemma truthy_false_iff (s : string) : JS.truthy s = false <-> s = EmptyString.
Proof.
  unfold JS.truthy. destruct (String.eqb_spec s EmptyString) as [E | E]; cbn.
  - split; [intros _; exact E | reflexivity].
  - split; [discriminate | intros E'; contradiction].
Qed.

Lemma truthy_true_length (s : string) : JS.truthy s = true <-> 0 < String.length s.
Proof.
  destruct s; cbn; split; intros H; try reflexivity; try discriminate; lia.
Qed.

Lemma trimStart_blank (s : string) :
  Spec.whitespaceOnly s = true -> JS.trimStart s = EmptyString.
Proof.
  unfold Spec.whitespaceOnly.
  induction s as [| c s IH]; cbn [list_ascii_of_string forallb JS.trimStart].
  - reflexivity.
  - intros H. apply andb_true_iff in H as [Hc Hs]. rewrite Hc. now apply IH.
Qed.

(** A string of white space trims to the empty string. *)
Lemma trim_blank (s : string) :
  Spec.whitespaceOnly s = true -> JS.trim s = EmptyString.
Proof.
  intros H. unfold JS.trim. now rewrite trimStart_blank.
Qed.

(** ** The fallback answerer *)

(** A goal [0 < length s] where [s] starts with the text of a template. *)
Ltac literal_head :=
  cbn [append String.length]; apply Nat.lt_0_succ.

Ltac split_if :=
  match goal with
  | |- context [if ?b then _ else _] => destruct b
  end.

Ltac template_nonempty := repeat first [ literal_head | split_if ].

Lemma defaultAnswer_nonempty (c : PageContext) :
  0 < String.length (Server.defaultAnswer c).
Proof. unfold Server.defaultAnswer. template_nonempty. Qed.

Lemma classAnswer_nonempty (c : PageContext) (k : Spec.QuestionClass) :
  0 < String.length (Spec.classAnswer c k).
Proof.
  destruct k; cbn [Spec.classAnswer];
    unfold Server.pageAnswer, Server.titleAnswer, Server.urlAnswer,
      Server.headingAnswer, Server.actionAnswer, Server.selectionAnswer,
      Server.summaryAnswer, Server.helpAnswer;
    cbv zeta; template_nonempty.
Qed.

(** The chain of tests of [generateContextualAnswer] is a search through
    the priority order. *)
Lemma generateContextualAnswer_by_priority (q : string) (c : PageContext) :
  Server.generateContextualAnswer q c = Spec.answerByPriority q c.
Proof.
  unfold Server.generateContextualAnswer, Spec.answerByPriority, Spec.priorityOrder.
  cbv zeta. cbn [find Spec.classMatches Spec.classAnswer].
  repeat split_if; reflexivity.
Qed.

(** C4: the fallback answerer is total and never silent.  For every
    question and every snapshot [generateContextualAnswer] returns a string
    of positive length; the empty snapshot (no title, url, description,
    headings, actions or selection) is one instance, spelled out. *)
Theorem fallback_answer_nonempty :
  forall (question : string) (context : PageContext),
    0 < String.length (Server.generateContextualAnswer question context)
    /\ 0 < String.length (Server.generateContextualAnswer question emptyContext).
Proof.
  intros q c.
  rewrite !generateContextualAnswer_by_priority.
  unfold Spec.answerByPriority.
  split.
  - destruct (find _ _); [apply classAnswer_nonempty | apply defaultAnswer_nonempty].
  - destruct (find _ _); [apply classAnswer_nonempty | apply defaultAnswer_nonempty].
Qed.

(** The empty question on the empty snapshot gets the generic answer. *)
Example fallback_answer_empty_inputs :
  Server.generateContextualAnswer EmptyString emptyContext
  = "Based on the page " ++ JS.quoted EmptyString
    ++ ", I can see 0 main sections and 0 interactive elements. Could you be more specific about what you'd like to know about this page? I can help explain the content, navigation options, or specific sections.".
Proof. reflexivity. Qed.

(** C9: the keyword classes are tried in the fixed order page-identity,
    title, url/links, headings/sections, actions/buttons, selection,
    summary, help, and the first class that matches gives the answer.  A
    question that names both a title and a heading, and is not a
    page-identity question, gets the title answer. *)
Theorem keyword_priority_fixed (question : string) (context : PageContext) :
  Server.generateContextualAnswer question context
  = Spec.answerByPriority question context
  /\ (JS.includes (JS.toLowerCase question) "title" = true ->
      JS.includes (JS.toLowerCase question) "heading" = true ->
      Spec.classMatches (JS.toLowerCase question) context Spec.PageIdentity = false ->
      Server.generateContextualAnswer question context
      = "The page title is " ++ JS.quoted (title context)
        ++ ". This gives us insight into the main topic or purpose of the page.").
Proof.
  split.
  - apply generateContextualAnswer_by_priority.
  - intros Htitle _ Hpage.
    cbn [Spec.classMatches] in Hpage.
    unfold Server.generateContextualAnswer. cbv zeta.
    rewrite Hpage, Htitle. reflexivity.
Qed.

(** A question with both keywords, on the demo page of the panel. *)
Lemma keyword_priority_fixed_witness :
  let question := "Is the title also the first heading?" in
  let context :=
    mkPageContext "OpenAI API Documentation" "https://docs.openai.com/api" EmptyString
      [mkHeading 1 "Getting Started"] [] [] EmptyString None EmptyString None in
  Server.generateContextualAnswer question context
  = "The page title is " ++ JS.quoted "OpenAI API Documentation"
    ++ ". This gives us insight into the main topic or purpose of the page.".
Proof.
  intros question context.
  apply (proj2 (keyword_priority_fixed question context)); reflexivity.
Defined.

(** C8, as the code has it: complexity is low below 3 headings, medium
    below 6 and high from 6 on; interactivity is low up to 3 actions,
    medium from 4 to 10 and high above 10. *)
Theorem classifier_thresholds :
  forall context : PageContext,
    let headingCount := List.length (headings context) in
    let actionCount := List.length (actions context) in
    Server.complexity (Server.analyzePageContext context)
    = (if headingCount <? 3 then "low" else if headingCount <? 6 then "medium" else "high")
    /\ Server.interactivity (Server.analyzePageContext context)
       = (if actionCount <=? 3 then "low"
          else if actionCount <=? 10 then "medium" else "high").
Proof.
  intros c hc ac. subst hc ac. cbn [Server.analyzePageContext Server.complexity Server.interactivity].
  split.
  - destruct (Nat.ltb_spec 5 (List.length (headings c)));
      destruct (Nat.ltb_spec 2 (List.length (headings c)));
      destruct (Nat.ltb_spec (List.length (headings c)) 3);
      destruct (Nat.ltb_spec (List.length (headings c)) 6);
      try reflexivity; lia.
  - destruct (Nat.ltb_spec 10 (List.length (actions c)));
      destruct (Nat.ltb_spec 3 (List.length (actions c)));
      destruct (Nat.leb_spec (List.length (actions c)) 3);
      destruct (Nat.leb_spec (List.length (actions c)) 10);
      try reflexivity; lia.
Qed.

(** C8, as worded, fails at exactly three actions: the code answers low
    where the worded threshold (low below 3) gives medium. *)
Lemma classifier_three_actions_low :
  let context :=
    mkPageContext EmptyString EmptyString EmptyString []
      [mkAction "Sign Up" "button" None; mkAction "View Examples" "link" None;
       mkAction "Download SDK" "button" None] [] EmptyString None EmptyString None in
  Server.interactivity (Server.analyzePageContext context) = "low"
  /\ Spec.spec_interactivity (List.length (actions context)) = "medium"
  /\ Server.interactivity (Server.analyzePageContext context)
     <> Spec.spec_interactivity (List.length (actions context)).
Proof.
  cbv zeta. repeat split. cbv. discriminate.
Qed.

(** ** The dispatcher *)

(** Whatever the remote call does, [generateAIResponse] returns a string:
    nothing thrown inside its [try] block leaves the function. *)
Lemma generateAIResponse_returns (openai : string -> Server.RemoteOutcome)
    (question : string) (context : PageContext) :
  exists answer, Server.generateAIResponse openai question context = Server.Return answer.
Proof.
  unfold Server.generateAIResponse.
  destruct (Server.tryBody openai question context) as [a | e]; eauto.
Qed.

(** A failed remote call makes the [try] block throw. *)
Lemma tryBody_throws (openai : string -> Server.RemoteOutcome)
    (question : string) (context : PageContext) :
  Server.remoteCallFails (openai (Server.buildPrompt question context)) = true ->
  exists e, Server.tryBody openai question context = Server.Throw e.
Proof.
  unfold Server.tryBody, Server.remoteCallFails. cbv zeta.
  destruct (openai _) as [e | [[[| [[m |]] cs] |]]];
    cbn [Server.malformed Server.readContent Server.choices Server.message nth_error];
    intros H; try discriminate; eauto.
Qed.

(** C2: when the remote call fails (it times out, answers with a
    non-success status such as 500, or delivers a malformed body) the
    dispatcher returns, as a value and not as an error, exactly the answer
    of the fallback answerer for the same question and snapshot. *)
Theorem dispatcher_falls_back (openai : string -> Server.RemoteOutcome)
    (question : string) (context : PageContext) :
  Server.remoteCallFails (openai (Server.buildPrompt question context)) = true ->
  Server.generateAIResponse openai question context
  = Server.Return (Server.generateContextualAnswer question context).
Proof.
  intros Hfail.
  destruct (tryBody_throws openai question context Hfail) as [e He].
  unfold Server.generateAIResponse. now rewrite He.
Qed.

(** The remote call answers with status 500. *)
Lemma dispatcher_falls_back_witness :
  let openai := fun _ : string => Server.Rejected (Server.HttpStatus 500) in
  let context :=
    mkPageContext "Docs" "https://example.org/docs" EmptyString
      [mkHeading 1 "Getting Started"] [] [] EmptyString None EmptyString None in
  Server.generateAIResponse openai "What does the first section cover?" context
  = Server.Return (Server.generateContextualAnswer "What does the first section cover?" context).
Proof.
  intros openai context.
  apply (dispatcher_falls_back openai); reflexivity.
Defined.

(** A timeout and a body without choices fall back in the same way, while a
    reply whose content is missing is answered by the fixed apology. *)
Example dispatcher_other_outcomes :
  Server.generateAIResponse (fun _ => Server.Rejected Server.Timeout) "title?" emptyContext
  = Server.Return (Server.generateContextualAnswer "title?" emptyContext)
  /\ Server.generateAIResponse
       (fun _ => Server.Resolved (Server.mkChatCompletion (Some []))) "title?" emptyContext
     = Server.Return (Server.generateContextualAnswer "title?" emptyContext)
  /\ Server.generateAIResponse
       (fun _ => Server.Resolved
                   (Server.mkChatCompletion
                      (Some [Server.mkChoice (Some (Server.mkMessage None))])))
       "title?" emptyContext
     = Server.Return "I couldn't generate a response. Please try again.".
Proof. repeat split. Qed.

(** ** The extractor: cap, convert, filter *)

Section CapThenFilter.
Variables (A B : Type) (n : nat) (f : A -> B) (keep : B -> bool).

Lemma capped_length (els : list A) :
  List.length (filter keep (map f (JS.slice n els))) <= n.
Proof.
  unfold JS.slice.
  etransitivity; [apply filter_length_le |].
  rewrite length_map. apply firstn_le_length.
Qed.

Lemma capped_kept (els : list A) :
  Forall (fun b => keep b = true) (filter keep (map f (JS.slice n els))).
Proof.
  apply Forall_forall. intros b Hb. now apply filter_In in Hb.
Qed.

Lemma capped_origin (els : list A) :
  Spec.drawnFromFirst n f els (filter keep (map f (JS.slice n els))).
Proof.
  intros b Hb. unfold JS.slice in Hb.
  apply filter_In in Hb as [Hb _].
  apply in_map_iff in Hb as [el [Hel Hin]].
  apply In_nth_error in Hin as [i Hi].
  assert (Hlt : i < n).
  { destruct (Nat.lt_ge_cases i n) as [Hlt | Hge]; [exact Hlt |].
    rewrite nth_error_firstn in Hi.
    destruct (Nat.ltb_spec i n); [lia | discriminate]. }
  exists i, el. repeat split; try assumption; try (symmetry; assumption).
  rewrite nth_error_firstn in Hi.
  destruct (Nat.ltb_spec i n); [assumption | discriminate].
Qed.

Lemma capped_prefix_only (els els' : list A) :
  firstn n els = firstn n els' ->
  filter keep (map f (JS.slice n els)) = filter keep (map f (JS.slice n els')).
Proof. unfold JS.slice. now intros ->. Qed.

End CapThenFilter.

Lemma mapped_length (A B : Type) (n : nat) (f : A -> B) (els : list A) :
  List.length (map f (JS.slice n els)) <= n.
Proof. unfold JS.slice. rewrite length_map. apply firstn_le_length. Qed.

Lemma positive_length_nonempty (s : string) :
  (0 <? String.length s) = true -> s <> EmptyString.
Proof. destruct s; cbn; [discriminate | intros _; discriminate]. Qed.

Lemma content_wellBounded (doc : DOM.Document) (now : string) (elapsed : nat) :
  Spec.wellBounded (Content.extractPageContext doc now elapsed).
Proof.
  unfold Spec.wellBounded, Content.extractPageContext; cbn [headings actions forms].
  repeat split.
  - apply capped_length.
  - apply capped_length.
  - apply mapped_length.
  - eapply Forall_impl; [| apply capped_kept].
    intros h Hk. unfold Content.keepHeading in Hk.
    apply andb_true_iff in Hk as [Hk _]. now apply positive_length_nonempty.
  - eapply Forall_impl; [| apply capped_kept].
    intros a Hk. unfold Content.keepAction in Hk.
    apply andb_true_iff in Hk as [Hk _]. now apply positive_length_nonempty.
Qed.

Lemma background_wellBounded (doc : DOM.Document) (now : string) :
  Spec.wellBounded (Background.extractPageContext doc now).
Proof.
  unfold Spec.wellBounded, Background.extractPageContext; cbn [headings actions forms].
  repeat split.
  - apply capped_length.
  - apply capped_length.
  - apply mapped_length.
  - eapply Forall_impl; [| apply capped_kept].
    intros h Hk. now apply positive_length_nonempty.
  - eapply Forall_impl; [| apply capped_kept].
    intros a Hk. now apply positive_length_nonempty.
Qed.

(** C3: for every document, the snapshot of the content script and the
    snapshot of the coordinator's inline extractor have at most 10
    headings, at most 20 actions and at most 5 forms, and none of their
    headings or actions has an empty text. *)
Theorem snapshot_bounds :
  forall (doc : DOM.Document) (now : string) (elapsed : nat),
    Spec.wellBounded (Content.extractPageContext doc now elapsed)
    /\ Spec.wellBounded (Background.extractPageContext doc now).
Proof.
  intros doc now elapsed. split.
  - apply content_wellBounded.
  - apply background_wellBounded.
Qed.

Lemma cutThenFiltered_pipeline (A B : Type) (n : nat) (f : A -> B) (keep : B -> bool)
    (els : list A) :
  Spec.cutThenFiltered n f keep els (filter keep (map f (JS.slice n els))).
Proof.
  repeat split.
  - apply capped_origin.
  - intros els' H. now apply capped_prefix_only.
Qed.

(** C10: the caps come before the filters.  In both extractors the
    headings are the kept ones among the first 10 heading elements and the
    actions the kept ones among the first 20 candidates, in document order:
    every entry stems from an element before the cap, and elements from the
    11th heading (21st candidate) on never contribute, however few entries
    are kept. *)
Theorem caps_before_filters (doc : DOM.Document) (now : string) (elapsed : nat) :
  Spec.cutThenFiltered 10 Content.toHeading Content.keepHeading
    (DOM.querySelectorAll doc Content.headingsSelector)
    (headings (Content.extractPageContext doc now elapsed))
  /\ Spec.cutThenFiltered 20 Content.toAction Content.keepAction
       (DOM.querySelectorAll doc Content.actionsSelector)
       (actions (Content.extractPageContext doc now elapsed))
  /\ Spec.cutThenFiltered 10 Background.toHeading Background.keepHeading
       (DOM.querySelectorAll doc Background.headingsSelector)
       (headings (Background.extractPageContext doc now))
  /\ Spec.cutThenFiltered 20 Background.toAction Background.keepAction
       (DOM.querySelectorAll doc Background.actionsSelector)
       (actions (Background.extractPageContext doc now)).
Proof.
  refine (conj _ (conj _ (conj _ _))); apply cutThenFiltered_pipeline.
Qed.

(** Ten blank headings precede a heading with a text: the snapshot has no
    heading at all, and in particular not the eleventh. *)
Lemma caps_before_filters_witness :
  let doc := Sample.lateHeadingDocument in
  let snapshot := Content.extractPageContext doc "2024-01-01T00:00:00.000Z" 3 in
  nth_error (DOM.querySelectorAll doc Content.headingsSelector) 10 = Some Sample.lateHeading
  /\ Content.keepHeading (Content.toHeading Sample.lateHeading) = true
  /\ List.length (headings snapshot) < 10
  /\ ~ In (Content.toHeading Sample.lateHeading) (headings snapshot).
Proof.
  intros doc snapshot.
  split; [reflexivity |]. split; [reflexivity |]. split; [cbv; lia |].
  intros Hin.
  destruct (caps_before_filters doc "2024-01-01T00:00:00.000Z" 3) as [[_ [Horigin _]] _].
  destruct (Horigin _ Hin) as [i [el [Hi [Hnth Heq]]]].
  do 10 (destruct i as [| i];
         [cbv in Hnth; injection Hnth as <-; cbv in Heq; discriminate |]).
  lia.
Defined.

(** ** The coordinator *)

Lemma handleContextExtracted_other_sender (c : PageContext)
    (sender : Background.Sender) (s : Background.State) :
  Background.fromCurrentTab sender s = false ->
  Background.handleContextExtracted c sender s = s.
Proof.
  unfold Background.fromCurrentTab, Background.handleContextExtracted.
  destruct (Background.sender_tab sender) as [tab |]; [| reflexivity].
  destruct (Background.currentTabId s) as [current |]; [| reflexivity].
  now intros ->.
Qed.

Lemma handleContextExtracted_current_tab (c : PageContext)
    (sender : Background.Sender) (s : Background.State) (tab : Background.Tab) :
  Background.sender_tab sender = Some tab ->
  Background.fromCurrentTab sender s = true ->
  Background.handleContextExtracted c sender s
  = {| Background.currentContext :=
         Some {| Background.context := c;
                 Background.tabId := Background.tab_id tab;
                 Background.tabUrl := Background.tab_url tab |};
       Background.currentTabId := Background.currentTabId s |}.
Proof.
  unfold Background.fromCurrentTab, Background.handleContextExtracted.
  intros ->.
  destruct (Background.currentTabId s) as [current |]; [| discriminate].
  now intros ->.
Qed.

(** C1, as the code has it: the coordinator keeps no generation counter
    and tells pushed extraction results apart by tab id.  A result whose
    sender is not the current tab (no tab at all, or another tab, such as
    the tab left by a tab switch) leaves the coordinator's state untouched;
    a result sent by the current tab is stored together with the sender's
    tab id and url. *)
Theorem pushed_result_guarded_by_tab_id :
  forall (s : Background.State) (c : PageContext) (sender : Background.Sender),
    (Background.fromCurrentTab sender s = false ->
     Background.handleContextExtracted c sender s = s)
    /\ (forall tab,
          Background.sender_tab sender = Some tab ->
          Background.fromCurrentTab sender s = true ->
          Background.currentContext (Background.handleContextExtracted c sender s)
          = Some {| Background.context := c;
                    Background.tabId := Background.tab_id tab;
                    Background.tabUrl := Background.tab_url tab |}
          /\ Background.currentTabId (Background.handleContextExtracted c sender s)
             = Background.currentTabId s)
    /\ (forall tab other,
          Background.sender_tab sender = Some tab ->
          Background.tab_id tab <> other ->
          let switched := Background.onActivated_resume (Background.onActivated other s) in
          Background.handleContextExtracted c sender switched = switched).
Proof.
  intros s c sender. refine (conj _ (conj _ _)).
  - apply handleContextExtracted_other_sender.
  - intros tab Htab Hcur.
    rewrite (handleContextExtracted_current_tab c sender s tab Htab Hcur). now split.
  - intros tab other Htab Hneq switched.
    apply handleContextExtracted_other_sender.
    unfold Background.fromCurrentTab. rewrite Htab. subst switched. cbn.
    now apply Nat.eqb_neq.
Qed.

(** Tab 1 pushes a result and it is stored; the user switches to tab 2; a
    late result of tab 1 is dropped. *)
Lemma pushed_result_guarded_by_tab_id_witness :
  let fromTab1 := Background.mkSender (Some (Background.mkTab 1 "https://example.org/a")) in
  let s1 :=
    Background.run Background.initialState
      [Background.Activated 1; Background.ActivatedResumed] in
  let stored := Background.handleContextExtracted emptyContext fromTab1 s1 in
  let s2 :=
    Background.run stored [Background.Activated 2; Background.ActivatedResumed] in
  Background.currentContext stored
  = Some (Background.mkStoredContext emptyContext 1 "https://example.org/a")
  /\ Background.handleContextExtracted emptyContext fromTab1 s2 = s2.
Proof.
  intros fromTab1 s1 stored s2. split.
  - apply (proj1 (proj2 (pushed_result_guarded_by_tab_id s1 emptyContext fromTab1))
             (Background.mkTab 1 "https://example.org/a")); reflexivity.
  - apply (proj1 (pushed_result_guarded_by_tab_id s2 emptyContext fromTab1)); reflexivity.
Defined.

(** C1, as worded, fails.  Tab 7 is active; its content script starts an
    extraction; the navigation of tab 7 completes, which clears the stored
    snapshot; the result of the extraction arrives and is stored, because
    its sender is still the current tab. *)
Lemma stale_result_is_stored :
  let before := [Background.Activated 7; Background.ActivatedResumed] in
  let between := [Background.Updated 7 "complete" true] in
  let sender := Background.mkSender (Some (Background.mkTab 7 "https://example.org/old")) in
  let s := Background.run Background.initialState (List.app before between) in
  existsb Background.invalidates between = true
  /\ Background.currentContext s = None
  /\ Background.currentContext
       (Background.step s (Background.ContextExtracted emptyContext sender))
     = Some (Background.mkStoredContext emptyContext 7 "https://example.org/old")
  /\ ~ Background.staleResultsDiscarded.
Proof.
  cbv zeta. repeat split.
  intros H.
  specialize (H [Background.Activated 7; Background.ActivatedResumed]
                [Background.Updated 7 "complete" true] emptyContext
                (Background.mkSender (Some (Background.mkTab 7 "https://example.org/old")))
                eq_refl).
  cbv in H. discriminate.
Qed.

(** The on-demand path has no guard at all: a script result for tab 1 that
    returns after the switch to tab 2 is stored under tab 1. *)
Example on_demand_result_after_switch :
  let s :=
    Background.run Background.initialState
      [Background.Activated 1; Background.ActivatedResumed;
       Background.Activated 2; Background.ActivatedResumed;
       Background.ScriptResult 1 "https://example.org/a" (Some emptyContext)] in
  Background.currentTabId s = Some 2
  /\ Background.getContext s
     = Some (Background.mkStoredContext emptyContext 1 "https://example.org/a").
Proof. split; reflexivity. Qed.

(** ** The panel *)

Lemma sidepanel_submit_blank (Ctx : Type) (s : SidePanel.State Ctx) :
  Spec.whitespaceOnly (SidePanel.question s) = true ->
  SidePanel.submitQuestion s = (s, []).
Proof.
  intros H. unfold SidePanel.submitQuestion.
  now rewrite (trim_blank _ H).
Qed.

Lemma extension_panel_submit_blank (p : ExtensionPanel.State) :
  Spec.whitespaceOnly (SidePanel.question p) = true ->
  ExtensionPanel.submitQuestion p = (p, []).
Proof.
  intros H. unfold ExtensionPanel.submitQuestion.
  now rewrite (trim_blank _ H).
Qed.

(** C5: with an empty or white-space-only question, submitting sends no
    request and leaves the whole panel state, and so the history, as it
    was: in the side panel through [submitQuestion], the Ask button and the
    keyboard shortcut, and in the demo panel alike. *)
Theorem blank_question_not_dispatched (Ctx : Type) (s : SidePanel.State Ctx)
    (p : ExtensionPanel.State) :
  Spec.whitespaceOnly (SidePanel.question s) = true ->
  Spec.whitespaceOnly (SidePanel.question p) = true ->
  SidePanel.submitQuestion s = (s, [])
  /\ SidePanel.deliver (SidePanel.Click SidePanel.submitButton) s = (s, [])
  /\ SidePanel.deliver (SidePanel.Keydown SidePanel.questionField "Enter" true) s = (s, [])
  /\ ExtensionPanel.submitQuestion p = (p, [])
  /\ ExtensionPanel.handleKeyDown "Enter" true p = (p, []).
Proof.
  intros Hs Hp.
  pose proof (sidepanel_submit_blank Ctx s Hs) as Es.
  pose proof (extension_panel_submit_blank p Hp) as Ep.
  refine (conj Es (conj _ (conj _ (conj Ep _)))).
  - unfold SidePanel.deliver, SidePanel.submitDisabled.
    rewrite (trim_blank _ Hs). reflexivity.
  - exact Es.
  - exact Ep.
Qed.

(** The questions [""] and ["   "], with a page context and ten entries of
    history at hand. *)
Lemma blank_question_not_dispatched_witness :
  let history := repeat (SidePanel.mkItem "q" "a" "2024-01-01T00:00:00.000Z") 10 in
  let s :=
    SidePanel.mkState (Some emptyContext) EmptyString None false false "connected" None history in
  let p :=
    SidePanel.mkState (Some emptyContext) "   " None false false "connected" None history in
  SidePanel.submitQuestion s = (s, [])
  /\ SidePanel.deliver (SidePanel.Click SidePanel.submitButton) s = (s, [])
  /\ SidePanel.deliver (SidePanel.Keydown SidePanel.questionField "Enter" true) s = (s, [])
  /\ ExtensionPanel.submitQuestion p = (p, [])
  /\ ExtensionPanel.handleKeyDown "Enter" true p = (p, []).
Proof.
  intros history s p.
  apply (blank_question_not_dispatched PageContext s p); reflexivity.
Defined.

Section PanelHistory.
Variable Ctx : Type.
Implicit Types (s : SidePanel.State Ctx) (e : SidePanel.Event Ctx).

Lemma submitQuestion_keeps_history s :
  SidePanel.conversationHistory (fst (SidePanel.submitQuestion s))
  = SidePanel.conversationHistory s.
Proof.
  unfold SidePanel.submitQuestion.
  destruct (negb _); [reflexivity |].
  now destruct (SidePanel.pageContext s).
Qed.

Lemma onClick_history_le (target : SidePanel.Target) s :
  List.length (SidePanel.conversationHistory (fst (SidePanel.onClick target s)))
  <= List.length (SidePanel.conversationHistory s).
Proof.
  unfold SidePanel.onClick.
  repeat match goal with
         | |- context [if SidePanel.matchesAction ?t ?a then _ else _] =>
             destruct (SidePanel.matchesAction t a)
         end; cbn [fst SidePanel.conversationHistory List.length]; try lia.
  - now rewrite submitQuestion_keeps_history.
  - destruct (SidePanel.answer s) as [a |]; [destruct (JS.truthy a) |]; cbn; lia.
Qed.

Lemma deliver_history_le (u : SidePanel.UserEvent) s :
  List.length (SidePanel.conversationHistory (fst (SidePanel.deliver u s)))
  <= List.length (SidePanel.conversationHistory s).
Proof.
  destruct u as [target | target value | target key ctrlKey]; cbn [SidePanel.deliver].
  - destruct (_ && _); [cbn; lia | apply onClick_history_le].
  - unfold SidePanel.onInput. destruct (SidePanel.matchesField _ _); cbn; lia.
  - unfold SidePanel.onKeydown. destruct (_ && _); [| cbn; lia].
    now rewrite submitQuestion_keeps_history.
Qed.

(** The answer to a request is put in front of the first nine entries. *)
Lemma resume_success_history s (status : nat) (a now : string) :
  SidePanel.conversationHistory
    (SidePanel.submitQuestion_resume (SidePanel.Responded true status (Some a)) now s)
  = SidePanel.mkItem (SidePanel.question s) a now
    :: firstn 9 (SidePanel.conversationHistory s).
Proof. reflexivity. Qed.

Lemma resume_history_bound (outcome : SidePanel.AskOutcome) (now : string) s :
  List.length (SidePanel.conversationHistory s) <= 10 ->
  List.length (SidePanel.conversationHistory (SidePanel.submitQuestion_resume outcome now s))
  <= 10.
Proof.
  intros H.
  destruct outcome as [| [|] status [a |]]; cbn [SidePanel.submitQuestion_resume
    SidePanel.conversationHistory]; try exact H.
  cbn [List.length]. unfold JS.slice.
  pose proof (firstn_le_length 9 (SidePanel.conversationHistory s)). lia.
Qed.

Lemma step_history_bound s e :
  List.length (SidePanel.conversationHistory s) <= 10 ->
  List.length (SidePanel.conversationHistory (SidePanel.step s e)) <= 10.
Proof.
  intros H. destruct e as [u | outcome now | outcome | healthy]; cbn [SidePanel.step].
  - pose proof (deliver_history_le u s). lia.
  - now apply resume_history_bound.
  - destruct outcome as [| [ctx |]]; exact H.
  - exact H.
Qed.

Lemma run_history_bound (es : list (SidePanel.Event Ctx)) s :
  List.length (SidePanel.conversationHistory s) <= 10 ->
  List.length (SidePanel.conversationHistory (SidePanel.run s es)) <= 10.
Proof.
  revert s. induction es as [| e es IH]; intros s H; cbn [SidePanel.run fold_left].
  - exact H.
  - apply IH. now apply step_history_bound.
Qed.

Lemma click_submit_enabled s :
  SidePanel.submitDisabled s = false ->
  SidePanel.deliver (SidePanel.Click SidePanel.submitButton) s = SidePanel.submitQuestion s.
Proof.
  intros H. unfold SidePanel.deliver.
  change (SidePanel.matchesAction SidePanel.submitButton "submit-question") with true.
  rewrite H. reflexivity.
Qed.

Lemma submitQuestion_sends s (ctx : Ctx) :
  SidePanel.pageContext s = Some ctx ->
  JS.truthy (JS.trim (SidePanel.question s)) = true ->
  SidePanel.submitQuestion s
  = (SidePanel.mkState (SidePanel.pageContext s) (SidePanel.question s)
       (SidePanel.answer s) true (SidePanel.isJsonExpanded s)
       (SidePanel.connectionStatus s) None (SidePanel.conversationHistory s),
     [SidePanel.FetchAsk (SidePanel.question s) ctx]).
Proof.
  intros Hctx Hq. unfold SidePanel.submitQuestion. now rewrite Hq, Hctx.
Qed.

Lemma submission_effect s (qa : string * string * string) :
  SidePanel.ready s -> SidePanel.askable qa ->
  SidePanel.ready (SidePanel.submission s qa)
  /\ SidePanel.conversationHistory (SidePanel.submission s qa)
     = SidePanel.entryOf qa :: firstn 9 (SidePanel.conversationHistory s).
Proof.
  destruct qa as [[q a] now]. unfold SidePanel.ready, SidePanel.askable. cbn [fst].
  intros [Hctx Hload] Hq.
  destruct (SidePanel.pageContext s) as [ctx |] eqn:Ectx; [clear Hctx | contradiction].
  unfold SidePanel.submission, SidePanel.run. cbn [fold_left SidePanel.step].
  set (typed := fst (SidePanel.deliver (SidePanel.Input SidePanel.questionField q) s)).
  assert (Htyped : typed
            = SidePanel.mkState (SidePanel.pageContext s) q (SidePanel.answer s)
                (SidePanel.isLoading s) (SidePanel.isJsonExpanded s)
                (SidePanel.connectionStatus s) (SidePanel.error s)
                (SidePanel.conversationHistory s)) by reflexivity.
  rewrite click_submit_enabled.
  2:{ rewrite Htyped. unfold SidePanel.submitDisabled.
      cbn [SidePanel.question SidePanel.isLoading]. now rewrite Hq, Hload. }
  rewrite (submitQuestion_sends typed ctx).
  2:{ rewrite Htyped. exact Ectx. }
  2:{ rewrite Htyped. exact Hq. }
  rewrite Htyped.
  cbn [fst SidePanel.submitQuestion_resume SidePanel.pageContext SidePanel.isLoading
       SidePanel.conversationHistory SidePanel.question SidePanel.entryOf JS.slice].
  rewrite Ectx. split; [split; [discriminate | reflexivity] | reflexivity].
Qed.

Lemma submissions_ready (rounds : list (string * string * string)) s :
  SidePanel.ready s -> Forall SidePanel.askable rounds ->
  SidePanel.ready (SidePanel.submissions s rounds).
Proof.
  intros Hready Hrounds. revert s Hready. unfold SidePanel.submissions.
  induction Hrounds as [| qa rounds Hqa _ IH]; intros s Hready; cbn [fold_left].
  - exact Hready.
  - apply IH. now apply submission_effect.
Qed.

(** After any number of successful submissions the history holds the
    newest ten entries, newest first. *)
Lemma submissions_history (rounds : list (string * string * string)) s :
  SidePanel.ready s -> Forall SidePanel.askable rounds ->
  List.length (SidePanel.conversationHistory s) <= 10 ->
  SidePanel.conversationHistory (SidePanel.submissions s rounds)
  = firstn 10 (List.app (rev (map SidePanel.entryOf rounds))
                 (SidePanel.conversationHistory s)).
Proof.
  intros Hready Hrounds Hlen.
  induction rounds as [| qa rounds IH] using rev_ind.
  - unfold SidePanel.submissions. cbn [fold_left map rev List.app].
    symmetry. now apply firstn_all2.
  - apply Forall_app in Hrounds as [Hrounds Hqa].
    apply Forall_inv in Hqa.
    unfold SidePanel.submissions in *.
    rewrite fold_left_app. cbn [fold_left].
    destruct (submission_effect _ qa (submissions_ready rounds s Hready Hrounds) Hqa)
      as [_ Hhist].
    unfold SidePanel.submissions in Hhist. rewrite Hhist, (IH Hrounds).
    rewrite map_app, rev_app_distr. cbn [map rev List.app].
    rewrite firstn_firstn. reflexivity.
Qed.

End PanelHistory.

Lemma extension_panel_resume_history (p : ExtensionPanel.State) (asked : string)
    (status : nat) (a now : string) :
  SidePanel.conversationHistory
    (ExtensionPanel.submitQuestion_resume asked
       (SidePanel.Responded true status (Some a)) now p)
  = SidePanel.mkItem asked a now :: firstn 9 (SidePanel.conversationHistory p).
Proof. reflexivity. Qed.

Lemma eleven_submissions (Ctx : Type) (s : SidePanel.State Ctx)
    (rounds : list (string * string * string)) :
  SidePanel.ready s -> SidePanel.conversationHistory s = [] ->
  Forall SidePanel.askable rounds -> List.length rounds = 11 ->
  let history := SidePanel.conversationHistory (SidePanel.submissions s rounds) in
  history = rev (tl (map SidePanel.entryOf rounds))
  /\ hd_error history = nth_error (map SidePanel.entryOf rounds) 10
  /\ List.length history = 10.
Proof.
  intros Hready Hempty Hask Hlen history. subst history.
  rewrite (submissions_history Ctx rounds s Hready Hask) by (rewrite Hempty; cbn; lia).
  rewrite Hempty, app_nil_r.
  do 12 (destruct rounds as [| ? rounds]; try discriminate Hlen).
  repeat split.
Qed.

(** C6: the history never holds more than 10 entries, whatever happens to
    the panel; a successful submission puts its entry in front of the first
    nine entries kept (in the side panel and in the demo panel); successful
    submissions from an empty history leave the newest ten entries, newest
    first; after 11 of them the history is the 11th entry down to the 2nd,
    so the 1st has been evicted and the first element is the 11th. *)
Theorem history_capacity_ten (Ctx : Type) :
  (forall es : list (SidePanel.Event Ctx),
      List.length (SidePanel.conversationHistory (SidePanel.run (SidePanel.initialState Ctx) es))
      <= 10)
  /\ (forall (s : SidePanel.State Ctx) (status : nat) (a now : string),
         SidePanel.conversationHistory
           (SidePanel.submitQuestion_resume (SidePanel.Responded true status (Some a)) now s)
         = SidePanel.mkItem (SidePanel.question s) a now
           :: firstn 9 (SidePanel.conversationHistory s))
  /\ (forall (p : ExtensionPanel.State) (asked : string) (status : nat) (a now : string),
         SidePanel.conversationHistory
           (ExtensionPanel.submitQuestion_resume asked
              (SidePanel.Responded true status (Some a)) now p)
         = SidePanel.mkItem asked a now :: firstn 9 (SidePanel.conversationHistory p))
  /\ (forall (s : SidePanel.State Ctx) (rounds : list (string * string * string)),
         SidePanel.ready s -> SidePanel.conversationHistory s = [] ->
         Forall SidePanel.askable rounds ->
         SidePanel.conversationHistory (SidePanel.submissions s rounds)
         = firstn 10 (rev (map SidePanel.entryOf rounds)))
  /\ (forall (s : SidePanel.State Ctx) (rounds : list (string * string * string)),
         SidePanel.ready s -> SidePanel.conversationHistory s = [] ->
         Forall SidePanel.askable rounds -> List.length rounds = 11 ->
         let history := SidePanel.conversationHistory (SidePanel.submissions s rounds) in
         history = rev (tl (map SidePanel.entryOf rounds))
         /\ hd_error history = nth_error (map SidePanel.entryOf rounds) 10
         /\ List.length history = 10).
Proof.
  refine (conj _ (conj _ (conj _ (conj _ _)))).
  - intros es. apply run_history_bound. cbn. lia.
  - intros. apply resume_success_history.
  - intros. apply extension_panel_resume_history.
  - intros s rounds Hready Hempty Hask.
    rewrite (submissions_history Ctx rounds s Hready Hask) by (rewrite Hempty; cbn; lia).
    now rewrite Hempty, app_nil_r.
  - apply eleven_submissions.
Qed.

(** Eleven questions asked in a row, starting right after the page context
    has been loaded. *)
Lemma history_capacity_ten_witness :
  let start :=
    SidePanel.run (SidePanel.initialState PageContext)
      [SidePanel.ScriptDone (SidePanel.ScriptReturned (Some emptyContext))] in
  let rounds :=
    [("q1", "a1", "t01"); ("q2", "a2", "t02"); ("q3", "a3", "t03"); ("q4", "a4", "t04");
     ("q5", "a5", "t05"); ("q6", "a6", "t06"); ("q7", "a7", "t07"); ("q8", "a8", "t08");
     ("q9", "a9", "t09"); ("q10", "a10", "t10"); ("q11", "a11", "t11")] in
  let history := SidePanel.conversationHistory (SidePanel.submissions start rounds) in
  history
  = [SidePanel.mkItem "q11" "a11" "t11"; SidePanel.mkItem "q10" "a10" "t10";
     SidePanel.mkItem "q9" "a9" "t09"; SidePanel.mkItem "q8" "a8" "t08";
     SidePanel.mkItem "q7" "a7" "t07"; SidePanel.mkItem "q6" "a6" "t06";
     SidePanel.mkItem "q5" "a5" "t05"; SidePanel.mkItem "q4" "a4" "t04";
     SidePanel.mkItem "q3" "a3" "t03"; SidePanel.mkItem "q2" "a2" "t02"]
  /\ hd_error history = Some (SidePanel.mkItem "q11" "a11" "t11")
  /\ List.length history = 10.
Proof.
  intros start rounds history.
  apply (proj2 (proj2 (proj2 (proj2 (history_capacity_ten PageContext)))) start rounds).
  - split; [discriminate | reflexivity].
  - reflexivity.
  - repeat constructor.
  - reflexivity.
Defined.

(** C7 does not hold of the code.  While a request is outstanding the Ask
    button is disabled, so a click is inert; but [submitQuestion] itself
    does not look at the loading flag, and the keyboard shortcut calls it
    directly: Ctrl+Enter in the question field sends a second request.  The
    demo panel behaves in the same way. *)
Theorem shortcut_dispatches_while_loading (Ctx : Type) (s : SidePanel.State Ctx)
    (ctx : Ctx) (p : ExtensionPanel.State) (pctx : PageContext) :
  SidePanel.isLoading s = true ->
  SidePanel.pageContext s = Some ctx ->
  JS.truthy (JS.trim (SidePanel.question s)) = true ->
  SidePanel.isLoading p = true ->
  SidePanel.pageContext p = Some pctx ->
  JS.truthy (JS.trim (SidePanel.question p)) = true ->
  SidePanel.deliver (SidePanel.Click SidePanel.submitButton) s = (s, [])
  /\ snd (SidePanel.deliver (SidePanel.Keydown SidePanel.questionField "Enter" true) s)
     = [SidePanel.FetchAsk (SidePanel.question s) ctx]
  /\ ExtensionPanel.submitDisabled p = true
  /\ snd (ExtensionPanel.handleKeyDown "Enter" true p)
     = [SidePanel.FetchAsk (SidePanel.question p) pctx].
Proof.
  intros Hload Hctx Hq Hpload Hpctx Hpq.
  refine (conj _ (conj _ (conj _ _))).
  - unfold SidePanel.deliver, SidePanel.submitDisabled.
    rewrite Hload, orb_true_r. reflexivity.
  - change (SidePanel.deliver (SidePanel.Keydown SidePanel.questionField "Enter" true) s)
      with (SidePanel.submitQuestion s).
    now rewrite (submitQuestion_sends Ctx s ctx Hctx Hq).
  - unfold ExtensionPanel.submitDisabled. rewrite Hpload. apply orb_true_r.
  - change (ExtensionPanel.handleKeyDown "Enter" true p)
      with (ExtensionPanel.submitQuestion p).
    unfold ExtensionPanel.submitQuestion. now rewrite Hpq, Hpctx.
Qed.

(** A question is being answered, and the user presses Ctrl+Enter again. *)
Lemma shortcut_dispatches_while_loading_witness :
  let s :=
    SidePanel.mkState (Some emptyContext) "What is this page about?" None true false
      "connected" None [] in
  SidePanel.deliver (SidePanel.Click SidePanel.submitButton) s = (s, [])
  /\ snd (SidePanel.deliver (SidePanel.Keydown SidePanel.questionField "Enter" true) s)
     = [SidePanel.FetchAsk "What is this page about?" emptyContext]
  /\ ExtensionPanel.submitDisabled s = true
  /\ snd (ExtensionPanel.handleKeyDown "Enter" true s)
     = [SidePanel.FetchAsk "What is this page about?" emptyContext].
Proof.
  intros s.
  apply (shortcut_dispatches_while_loading PageContext s emptyContext s emptyContext);
    reflexivity.
Defined.

(** When the panel's own request to the backend fails, the panel shows an
    error and keeps its answer and history. *)
Lemma panel_failure_keeps_answers (Ctx : Type) (s : SidePanel.State Ctx)
    (status : nat) (body : option string) (now : string) :
  let s' := SidePanel.submitQuestion_resume (SidePanel.Responded false status body) now s in
  SidePanel.error s' = Some SidePanel.failureMessage
  /\ SidePanel.answer s' = SidePanel.answer s
  /\ SidePanel.conversationHistory s' = SidePanel.conversationHistory s
  /\ SidePanel.isLoading s' = false.
Proof. destruct body; repeat split. Qed.

(* ================================================================== *)
(** * Further properties of the code *)
(* ================================================================== *)

(** ** More on strings *)

Lemma lowerChar_idempotent (c : ascii) : JS.lowerChar (JS.lowerChar c) = JS.lowerChar c.
Proof.
  destruct c as [[|] [|] [|] [|] [|] [|] [|] [|]]; vm_compute; reflexivity.
Qed.

Lemma toLowerCase_idempotent (s : string) :
  JS.toLowerCase (JS.toLowerCase s) = JS.toLowerCase s.
Proof.
  induction s as [| c s IH]; cbn [JS.toLowerCase].
  - reflexivity.
  - now rewrite lowerChar_idempotent, IH.
Qed.

Lemma orElse_empty (s : string) : JS.orElse s EmptyString = s.
Proof. now destruct s. Qed.

Lemma trimStart_head (s : string) :
  JS.trimStart s = EmptyString
  \/ exists c r, JS.trimStart s = String c r /\ JS.isWhiteSpace c = false.
Proof.
  induction s as [| c s IH]; cbn [JS.trimStart].
  - now left.
  - destruct (JS.isWhiteSpace c) eqn:E; [exact IH | right; eauto].
Qed.

Lemma trimStart_empty_blank (s : string) :
  JS.trimStart s = EmptyString -> Spec.whitespaceOnly s = true.
Proof.
  unfold Spec.whitespaceOnly.
  induction s as [| c s IH]; cbn [JS.trimStart list_ascii_of_string forallb].
  - reflexivity.
  - destruct (JS.isWhiteSpace c); [exact IH | discriminate].
Qed.

Lemma trimEnd_keeps_head (c : ascii) (r : string) :
  JS.isWhiteSpace c = false -> exists r', JS.trimEnd (String c r) = String c r'.
Proof.
  intros H. cbn [JS.trimEnd]. rewrite H. destruct (JS.trimEnd r); eauto.
Qed.

Lemma trimEnd_idempotent (s : string) : JS.trimEnd (JS.trimEnd s) = JS.trimEnd s.
Proof.
  induction s as [| c s IH]; cbn [JS.trimEnd].
  - reflexivity.
  - destruct (JS.trimEnd s) as [| c' r'] eqn:E.
    + destruct (JS.isWhiteSpace c) eqn:W; cbn [JS.trimEnd]; [reflexivity | now rewrite W].
    + cbn [JS.trimEnd] in *. now rewrite IH.
Qed.

(** A string trims to the empty string exactly when it is white space. *)
Lemma trim_empty_iff (s : string) :
  JS.trim s = EmptyString <-> Spec.whitespaceOnly s = true.
Proof.
  split; [| apply trim_blank].
  unfold JS.trim. intros H.
  destruct (trimStart_head s) as [E | [c [r [E W]]]].
  - now apply trimStart_empty_blank.
  - rewrite E in H. destruct (trimEnd_keeps_head c r W) as [r' E']. congruence.
Qed.

(** Trimming what is trimmed changes nothing. *)
Lemma trim_idempotent (s : string) : JS.trim (JS.trim s) = JS.trim s.
Proof.
  unfold JS.trim.
  destruct (trimStart_head s) as [E | [c [r [E W]]]].
  - now rewrite E.
  - rewrite E. destruct (trimEnd_keeps_head c r W) as [r' E'].
    rewrite E'. cbn [JS.trimStart]. rewrite W, <- E'. apply trimEnd_idempotent.
Qed.

Lemma sliceStr_length (n : nat) (s : string) : String.length (JS.sliceStr n s) <= n.
Proof.
  unfold JS.sliceStr. revert s.
  induction n as [| n IH]; intros [| c s]; cbn [substring String.length]; try lia.
  specialize (IH s). lia.
Qed.

Lemma sliceStr_length_le (n : nat) (s : string) :
  String.length (JS.sliceStr n s) <= String.length s.
Proof.
  unfold JS.sliceStr. revert s.
  induction n as [| n IH]; intros [| c s]; cbn [substring String.length]; try lia.
  specialize (IH s). lia.
Qed.

(** ** The fallback answerer and its helpers *)

(** X1: the fallback answerer reads the question in lower case only:
    two questions that differ in the case of their letters get the same
    answer on every snapshot, and so does a question and its lower-cased
    form. *)
Theorem fallback_ignores_case (question question' : string) (context : PageContext) :
  JS.toLowerCase question = JS.toLowerCase question' ->
  Server.generateContextualAnswer question context
  = Server.generateContextualAnswer question' context
  /\ Server.generateContextualAnswer (JS.toLowerCase question) context
     = Server.generateContextualAnswer question context.
Proof.
  intros H. unfold Server.generateContextualAnswer. cbv zeta.
  rewrite toLowerCase_idempotent, H. split; reflexivity.
Qed.

(** [TITLE?] and [Title?]. *)
Lemma fallback_ignores_case_witness :
  Server.generateContextualAnswer "WHAT IS THE TITLE?" emptyContext
  = Server.generateContextualAnswer "What is the Title?" emptyContext
  /\ Server.generateContextualAnswer (JS.toLowerCase "WHAT IS THE TITLE?") emptyContext
     = Server.generateContextualAnswer "WHAT IS THE TITLE?" emptyContext.
Proof.
  apply (fallback_ignores_case "WHAT IS THE TITLE?" "What is the Title?" emptyContext).
  reflexivity.
Defined.

(** X2: [getPageType] answers with one of its ten labels, and looks at the
    title, the url and the heading texts in lower case only. *)
Theorem page_type_label (context : PageContext) :
  In (Server.getPageType context) Routes.pageTypes
  /\ Server.getPageType (Routes.lowerCased context) = Server.getPageType context.
Proof.
  split.
  - unfold Server.getPageType, Routes.pageTypes. cbv zeta.
    repeat split_if; cbn [In]; tauto.
  - unfold Server.getPageType, Routes.lowerCased. cbv zeta.
    cbn [title url headings].
    rewrite !orElse_empty, !toLowerCase_idempotent, map_map.
    cbn [h_text].
    rewrite (map_ext (fun x => JS.toLowerCase (JS.toLowerCase (h_text x)))
               (fun h => JS.toLowerCase (h_text h)))
      by (intros; apply toLowerCase_idempotent).
    reflexivity.
Qed.

(** X3: [generateContextSuggestions] returns at most three suggestions
    drawn from the snapshot, always followed by the two generic questions:
    between two and five in all, so its cut at five never drops one. *)
Theorem suggestions_end_with_generic (context : PageContext) :
  exists specific,
    Routes.generateContextSuggestions context
    = List.app specific ["What is this page about?"; "How do I navigate this page?"]
    /\ List.length specific
       = (if 0 <? List.length (headings context) then 1 else 0)
         + (if 0 <? List.length (actions context) then 1 else 0)
         + (if JS.truthy (selected_text context) then 1 else 0)
    /\ 2 <= List.length (Routes.generateContextSuggestions context) <= 5.
Proof.
  unfold Routes.generateContextSuggestions. cbv zeta.
  destruct (headings context) as [| h hs], (actions context) as [| a acts],
    (JS.truthy (selected_text context));
    cbn [List.app JS.slice firstn List.length Nat.ltb Nat.leb];
    eexists;
    (split; [ | split; [ | cbn [List.app List.length]; lia ] ]);
    try (instantiate (1 := []); reflexivity);
    try (instantiate (1 := [_]); reflexivity);
    try (instantiate (1 := [_; _]); reflexivity);
    try (instantiate (1 := [_; _; _]); reflexivity);
    reflexivity.
Qed.

(** X4: [buildContextSummary] is the empty string exactly for a context
    without title, url, headings, actions and selected text. *)
Theorem summary_empty_iff (context : PageContext) :
  Routes.buildContextSummary context = EmptyString
  <-> title context = EmptyString /\ url context = EmptyString
      /\ headings context = [] /\ actions context = []
      /\ selected_text context = EmptyString.
Proof.
  unfold Routes.buildContextSummary. cbv zeta.
  destruct (title context) as [| c1 t], (url context) as [| c2 u],
    (headings context) as [| h hs], (actions context) as [| a acts],
    (selected_text context) as [| c3 sel];
    cbn [JS.truthy String.eqb negb List.length Nat.ltb Nat.leb List.app JS.join
         String.concat append];
    split; intros H; try discriminate H; try (decompose [and] H; discriminate);
    repeat split.
Qed.

(** ** The route [POST /api/ask] *)

Lemma nonblank_truthy (question : string) :
  Spec.whitespaceOnly question = false ->
  negb (JS.truthy question) || negb (JS.truthy (JS.trim question)) = false.
Proof.
  intros H.
  assert (Ht : JS.truthy (JS.trim question) = true).
  { destruct (JS.truthy (JS.trim question)) eqn:E; [reflexivity |].
    apply truthy_false_iff, trim_empty_iff in E. congruence. }
  assert (Hq : JS.truthy question = true).
  { destruct question; [discriminate H | reflexivity]. }
  now rewrite Ht, Hq.
Qed.

Lemma blank_not_truthy (question : string) :
  Spec.whitespaceOnly question = true ->
  negb (JS.truthy question) || negb (JS.truthy (JS.trim question)) = true.
Proof.
  intros H. rewrite (trim_blank _ H). apply orb_true_r.
Qed.

(** X5: the route answers 400 exactly when the question is missing or
    blank or the context is missing, and 200 otherwise, never 500: no
    failure of the model call reaches the client.  When that call fails the
    answer sent is the fallback answer, with the counts of the context. *)
Theorem ask_route_never_fails (openai : string -> Server.RemoteOutcome)
    (body : Routes.AskBody) :
  let blank :=
    match Routes.body_question body with
    | Some question => Spec.whitespaceOnly question
    | None => true
    end in
  Routes.statusOf (Routes.ask openai body) <> 500
  /\ (blank = true -> Routes.ask openai body = Routes.questionRequired)
  /\ (blank = false -> Routes.body_context body = None ->
      Routes.ask openai body = Routes.contextRequired)
  /\ (forall question context,
         Routes.body_question body = Some question ->
         Routes.body_context body = Some context ->
         blank = false ->
         Routes.statusOf (Routes.ask openai body) = 200
         /\ (Server.remoteCallFails (openai (Server.buildPrompt question context)) = true ->
             Routes.ask openai body
             = Routes.Answered (Server.generateContextualAnswer question context)
                 (Routes.mkContextUsed (title context) (url context)
                    (List.length (headings context)) (List.length (actions context))
                    (JS.truthy (selected_text context))))).
Proof.
  intros blank. subst blank. unfold Routes.ask.
  destruct (Routes.body_question body) as [question |].
  2:{ repeat split; try discriminate; try (intros; discriminate). }
  destruct (Spec.whitespaceOnly question) eqn:Hblank.
  - rewrite (blank_not_truthy _ Hblank).
    repeat split; try discriminate; try (cbn; discriminate).
  - rewrite (nonblank_truthy _ Hblank).
    destruct (Routes.body_context body) as [context |].
    + destruct (generateAIResponse_returns openai question context) as [answer Ha].
      rewrite Ha. refine (conj _ (conj _ (conj _ _))); try discriminate.
      intros q c Hq Hc _. injection Hq as <-. injection Hc as <-.
      split; [reflexivity |].
      intros Hfail.
      destruct (tryBody_throws openai question context Hfail) as [e He].
      unfold Server.generateAIResponse in Ha. rewrite He in Ha.
      injection Ha as <-. reflexivity.
    + repeat split; try discriminate; try (cbn; discriminate).
Qed.

(** The model call times out on a question about the sample page. *)
Lemma ask_route_never_fails_witness :
  let openai := fun _ : string => Server.Rejected Server.Timeout in
  let context :=
    mkPageContext "Plans" "https://example.org/plans" EmptyString
      [mkHeading 1 "Pricing"] [] [] EmptyString None EmptyString None in
  let body := Routes.mkAskBody (Some "Which headings are there?") (Some context) in
  Routes.ask openai body
  = Routes.Answered
      (Server.generateContextualAnswer "Which headings are there?" context)
      (Routes.mkContextUsed "Plans" "https://example.org/plans" 1 0 false).
Proof.
  intros openai context body.
  apply (proj2 (proj2 (proj2 (proj2 (ask_route_never_fails openai body)))
                  "Which headings are there?" context eq_refl eq_refl eq_refl)).
  reflexivity.
Defined.

(** ** What the extractors let through *)

Lemma kept_images (A B : Type) (f : A -> B) (keep : B -> bool) (P : B -> Prop)
    (els : list A) :
  (forall el, keep (f el) = true -> P (f el)) ->
  Forall P (filter keep (map f els)).
Proof.
  intros H. apply Forall_forall. intros b Hb.
  apply filter_In in Hb as [Hin Hkeep].
  apply in_map_iff in Hin as [el [<- _]]. now apply H.
Qed.

(** X6: the texts of a snapshot are trimmed and bounded.  From the content
    script: a heading text is trimmed and 1 to 199 code units long, an
    action text 3 to 50, a paragraph trimmed and 21 to 499, with at most 5
    paragraphs; the selected text is trimmed.  From the coordinator's inline
    extractor: a heading text is trimmed and not empty, an action text 1 to
    50 code units long, and there are no paragraphs. *)
Theorem snapshot_texts_bounded (doc : DOM.Document) (now : string) (elapsed : nat) :
  let c := Content.extractPageContext doc now elapsed in
  let b := Background.extractPageContext doc now in
  Forall (fun h => 0 < String.length (h_text h) < 200 /\ JS.trim (h_text h) = h_text h)
    (headings c)
  /\ Forall (fun a => 2 < String.length (a_text a) <= 50) (actions c)
  /\ (exists ps, paragraphs c = Some ps /\ List.length ps <= 5
                 /\ Forall (fun p => 20 < String.length p < 500 /\ JS.trim p = p) ps)
  /\ JS.trim (selected_text c) = selected_text c
  /\ Forall (fun h => 0 < String.length (h_text h) /\ JS.trim (h_text h) = h_text h)
       (headings b)
  /\ Forall (fun a => 0 < String.length (a_text a) <= 50) (actions b)
  /\ paragraphs b = None
  /\ JS.trim (selected_text b) = selected_text b.
Proof.
  cbv zeta. unfold Content.extractPageContext, Background.extractPageContext.
  cbn [headings actions paragraphs selected_text].
  refine (conj _ (conj _ (conj _ (conj _ (conj _ (conj _ (conj _ _))))))).
  - apply kept_images. intros el Hk. unfold Content.keepHeading in Hk.
    apply andb_true_iff in Hk as [H1 H2].
    apply Nat.ltb_lt in H1, H2. cbn [Content.toHeading h_text] in *.
    split; [lia | apply trim_idempotent].
  - apply kept_images. intros el Hk. unfold Content.keepAction in Hk.
    apply andb_true_iff in Hk as [_ H2]. apply Nat.ltb_lt in H2.
    cbn [Content.toAction a_text] in *.
    split; [exact H2 | apply sliceStr_length].
  - eexists. split; [reflexivity |]. split.
    + apply capped_length.
    + apply kept_images. intros el Hk. unfold Content.keepParagraph in Hk.
      apply andb_true_iff in Hk as [H1 H2]. apply Nat.ltb_lt in H1, H2.
      split; [lia | apply trim_idempotent].
  - apply trim_idempotent.
  - apply kept_images. intros el Hk. unfold Background.keepHeading in Hk.
    apply Nat.ltb_lt in Hk. cbn [Background.toHeading h_text] in *.
    split; [exact Hk | apply trim_idempotent].
  - apply kept_images. intros el Hk. unfold Background.keepAction in Hk.
    apply Nat.ltb_lt in Hk. cbn [Background.toAction a_text] in *.
    split; [exact Hk | apply sliceStr_length].
  - reflexivity.
  - apply trim_idempotent.
Qed.

(** X7: the side panel's own extractor keeps the same caps: at most 10
    headings, 20 actions and 5 forms; its headings are trimmed, non-empty
    strings and its action texts are 1 to 50 code units long. *)
Theorem panel_extractor_bounded (doc : DOM.Document) :
  let c := PanelExtras.extractPageContext doc in
  List.length (PanelExtras.p_headings c) <= 10
  /\ List.length (PanelExtras.p_actions c) <= 20
  /\ List.length (PanelExtras.p_forms c) <= 5
  /\ Forall (fun text => 0 < String.length text /\ JS.trim text = text)
       (PanelExtras.p_headings c)
  /\ Forall (fun a => 0 < String.length (a_text a) <= 50) (PanelExtras.p_actions c)
  /\ JS.trim (PanelExtras.p_selected_text c) = PanelExtras.p_selected_text c.
Proof.
  cbv zeta. unfold PanelExtras.extractPageContext.
  cbn [PanelExtras.p_headings PanelExtras.p_actions PanelExtras.p_forms
       PanelExtras.p_selected_text].
  refine (conj _ (conj _ (conj _ (conj _ (conj _ _))))).
  - apply capped_length.
  - apply capped_length.
  - apply mapped_length.
  - apply kept_images. intros el Hk. unfold PanelExtras.keepText in Hk.
    apply Nat.ltb_lt in Hk. split; [exact Hk | apply trim_idempotent].
  - apply kept_images. intros el Hk. apply Nat.ltb_lt in Hk.
    cbn [PanelExtras.toAction a_text] in *.
    split; [exact Hk | apply sliceStr_length].
  - apply trim_idempotent.
Qed.

(** ** The coordinator's store *)




(** X9: on-demand extraction either fails and leaves the coordinator's
    state alone, or stores the script's result under the tab it was asked
    for.  Without a tab id (none, or 0) it fails with [No active tab]; on a
    chrome:// or chrome-extension:// page it fails before any script is run;
    a script without a result fails too. *)
Theorem on_demand_extraction_guarded (requested : option nat)
    (tabsGet : nat -> OnDemand.Awaited Background.Tab)
    (executeScript : nat -> OnDemand.Awaited (option PageContext))
    (s : Background.State) :
  let r := OnDemand.extractContextFromTab requested tabsGet executeScript s in
  match snd r with
  | inl _ => fst r = s
  | inr c =>
      exists t tab,
        requested = Some t /\ t <> 0 /\ tabsGet t = OnDemand.Fulfilled tab
        /\ OnDemand.privileged (Background.tab_url tab) = false
        /\ executeScript t = OnDemand.Fulfilled (Some c)
        /\ fst r
           = Background.mkState
               (Some (Background.mkStoredContext c t (Background.tab_url tab)))
               (Background.currentTabId s)
  end
  /\ ((requested = None \/ requested = Some 0) -> snd r = inl "No active tab")
  /\ (forall t tab,
         requested = Some (S t) -> tabsGet (S t) = OnDemand.Fulfilled tab ->
         OnDemand.privileged (Background.tab_url tab) = true ->
         r = (s, inl "Cannot access chrome:// or extension pages")).
Proof.
  cbv zeta. unfold OnDemand.extractContextFromTab.
  refine (conj _ (conj _ _)).
  - destruct requested as [[| t] |]; cbn [snd fst]; try reflexivity.
    destruct (tabsGet (S t)) as [tab | message] eqn:Eget; cbn [snd fst]; [| reflexivity].
    destruct (OnDemand.privileged (Background.tab_url tab)) eqn:Epriv;
      cbn [snd fst]; [reflexivity |].
    destruct (executeScript (S t)) as [[c |] | message] eqn:Eexec;
      cbn [snd fst]; try reflexivity.
    exists (S t), tab. repeat split; try assumption. discriminate.
  - intros [-> | ->]; reflexivity.
  - intros t tab -> Hget Hpriv. now rewrite Hget, Hpriv.
Qed.

(** The panel asks for the context of the extensions page. *)
Lemma on_demand_extraction_guarded_witness :
  let tabsGet := fun _ : nat =>
    OnDemand.Fulfilled (Background.mkTab 4 "chrome://extensions/") in
  let executeScript := fun _ : nat => OnDemand.Fulfilled (Some emptyContext) in
  let s := Background.mkState None (Some 4) in
  OnDemand.extractContextFromTab
    (OnDemand.requestedTab (Background.mkSender None) s) tabsGet executeScript s
  = (s, inl "Cannot access chrome:// or extension pages").
Proof.
  intros tabsGet executeScript s.
  apply (proj2 (proj2 (on_demand_extraction_guarded (Some 4) tabsGet executeScript s))
           3 (Background.mkTab 4 "chrome://extensions/")); reflexivity.
Defined.

(** X10: a selection event never clears the stored selection.  The
    listener of the content script sends nothing for an empty or blank
    selection, so the coordinator's state stays as it is; what it does send
    is trimmed and not empty, and replaces the selected text of the stored
    snapshot only, leaving its other fields, its tab id and its tab url. *)
Theorem selection_never_cleared (doc : DOM.Document) (sender : Background.Sender)
    (s : Background.State) :
  let s' := OnDemand.afterSelectionChange doc sender s in
  Background.currentTabId s' = Background.currentTabId s
  /\ (Spec.whitespaceOnly (DOM.getSelection doc) = true -> s' = s)
  /\ match Background.currentContext s, Background.currentContext s' with
     | Some old, Some new =>
         Background.setSelectedText (Background.context new)
           (selected_text (Background.context old))
         = Background.setSelectedText (Background.context old)
             (selected_text (Background.context old))
         /\ Background.tabId new = Background.tabId old
         /\ Background.tabUrl new = Background.tabUrl old
         /\ (selected_text (Background.context old) <> EmptyString ->
             selected_text (Background.context new) <> EmptyString)
     | None, None => True
     | _, _ => False
     end.
Proof.
  cbv zeta. unfold OnDemand.afterSelectionChange, OnDemand.onSelectionChange. cbv zeta.
  refine (conj _ (conj _ _)).
  - destruct (0 <? _); [| reflexivity].
    unfold Background.handleSelectionChanged.
    destruct s as [[old |] [current |]], (Background.sender_tab sender) as [tab |];
      cbn; try reflexivity.
    now destruct (_ =? _).
  - intros H. now rewrite (trim_blank _ H).
  - destruct (0 <? String.length (JS.trim (DOM.getSelection doc))) eqn:Hlen.
    + apply positive_length_nonempty in Hlen.
      unfold Background.handleSelectionChanged.
      destruct s as [[old |] [current |]], (Background.sender_tab sender) as [tab |];
        cbn; try exact I; try (repeat split; intros H; exact H).
      destruct (_ =? _); cbn; repeat split; try (intros H; exact H).
      intros _. exact Hlen.
    + destruct (Background.currentContext s); [| exact I].
      repeat split. intros H; exact H.
Qed.

(** ** More on the panel *)

(** X11: a failed request can be retried at once.  Whatever way the
    request fails (the fetch rejects, the status is not a success, the body
    cannot be read), the panel shows its failure message, lowers the loading
    flag and keeps the question, the answer and the history, so that the
    Ask button sends the very same request again. *)
Theorem failed_request_can_be_retried (Ctx : Type) (s : SidePanel.State Ctx) (ctx : Ctx)
    (outcome : SidePanel.AskOutcome) (now : string) :
  SidePanel.pageContext s = Some ctx ->
  SidePanel.isLoading s = false ->
  JS.truthy (JS.trim (SidePanel.question s)) = true ->
  PanelExtras.askSucceeded outcome = false ->
  let first := SidePanel.deliver (SidePanel.Click SidePanel.submitButton) s in
  let failed := SidePanel.submitQuestion_resume outcome now (fst first) in
  snd first = [SidePanel.FetchAsk (SidePanel.question s) ctx]
  /\ failed
     = SidePanel.mkState (SidePanel.pageContext s) (SidePanel.question s)
         (SidePanel.answer s) false (SidePanel.isJsonExpanded s)
         (SidePanel.connectionStatus s) (Some SidePanel.failureMessage)
         (SidePanel.conversationHistory s)
  /\ snd (SidePanel.deliver (SidePanel.Click SidePanel.submitButton) failed) = snd first.
Proof.
  intros Hctx Hload Hq Hfail first failed.
  assert (Hfirst : first
            = (SidePanel.mkState (SidePanel.pageContext s) (SidePanel.question s)
                 (SidePanel.answer s) true (SidePanel.isJsonExpanded s)
                 (SidePanel.connectionStatus s) None (SidePanel.conversationHistory s),
               [SidePanel.FetchAsk (SidePanel.question s) ctx])).
  { subst first. rewrite click_submit_enabled.
    - now apply submitQuestion_sends.
    - unfold SidePanel.submitDisabled. now rewrite Hq, Hload. }
  assert (Hfailed : failed
            = SidePanel.mkState (SidePanel.pageContext s) (SidePanel.question s)
                (SidePanel.answer s) false (SidePanel.isJsonExpanded s)
                (SidePanel.connectionStatus s) (Some SidePanel.failureMessage)
                (SidePanel.conversationHistory s)).
  { subst failed. rewrite Hfirst.
    destruct outcome as [| [|] status [a |]]; try discriminate Hfail; reflexivity. }
  refine (conj _ (conj Hfailed _)).
  - now rewrite Hfirst.
  - rewrite Hfailed, Hfirst. rewrite click_submit_enabled.
    + now rewrite (submitQuestion_sends _ _ ctx).
    + unfold SidePanel.submitDisabled.
      cbn [SidePanel.question SidePanel.isLoading]. now rewrite Hq.
Qed.

(** The backend answers 500 to a question about the page. *)
Lemma failed_request_can_be_retried_witness :
  let s :=
    SidePanel.mkState (Some emptyContext) "What is this page about?" None false false
      "connected" None [] in
  let first := SidePanel.deliver (SidePanel.Click SidePanel.submitButton) s in
  let failed :=
    SidePanel.submitQuestion_resume (SidePanel.Responded false 500 None) "t" (fst first) in
  snd first = [SidePanel.FetchAsk "What is this page about?" emptyContext]
  /\ failed
     = SidePanel.mkState (Some emptyContext) "What is this page about?" None false false
         "connected" (Some SidePanel.failureMessage) []
  /\ snd (SidePanel.deliver (SidePanel.Click SidePanel.submitButton) failed) = snd first.
Proof.
  intros s first failed.
  apply (failed_request_can_be_retried PageContext s emptyContext
           (SidePanel.Responded false 500 None) "t"); reflexivity.
Defined.

(** X12: the side panel builds a history entry from the question held by
    its state when the answer arrives.  If the user edits the question while
    the request is under way, the entry pairs the edited text with the
    answer to the question that was sent, and the edit is wiped from the
    question field.  The demo panel records the question its request was
    made with. *)
Theorem history_records_question_at_arrival (Ctx : Type) (s : SidePanel.State Ctx)
    (ctx : Ctx) (q q' a now : string) (status : nat) (p : ExtensionPanel.State) :
  SidePanel.pageContext s = Some ctx ->
  SidePanel.isLoading s = false ->
  JS.truthy (JS.trim q) = true ->
  let typed := fst (SidePanel.deliver (SidePanel.Input SidePanel.questionField q) s) in
  let asked := SidePanel.deliver (SidePanel.Click SidePanel.submitButton) typed in
  let edited :=
    fst (SidePanel.deliver (SidePanel.Input SidePanel.questionField q') (fst asked)) in
  let done :=
    SidePanel.submitQuestion_resume (SidePanel.Responded true status (Some a)) now edited in
  snd asked = [SidePanel.FetchAsk q ctx]
  /\ SidePanel.conversationHistory done
     = SidePanel.mkItem q' a now :: firstn 9 (SidePanel.conversationHistory s)
  /\ SidePanel.question done = EmptyString
  /\ SidePanel.conversationHistory
       (ExtensionPanel.submitQuestion_resume q
          (SidePanel.Responded true status (Some a)) now p)
     = SidePanel.mkItem q a now :: firstn 9 (SidePanel.conversationHistory p).
Proof.
  intros Hctx Hload Hq typed asked edited done.
  assert (Htyped : typed
            = SidePanel.mkState (SidePanel.pageContext s) q (SidePanel.answer s)
                (SidePanel.isLoading s) (SidePanel.isJsonExpanded s)
                (SidePanel.connectionStatus s) (SidePanel.error s)
                (SidePanel.conversationHistory s)) by reflexivity.
  assert (Hasked : asked
            = (SidePanel.mkState (SidePanel.pageContext s) q (SidePanel.answer s) true
                 (SidePanel.isJsonExpanded s) (SidePanel.connectionStatus s) None
                 (SidePanel.conversationHistory s),
               [SidePanel.FetchAsk q ctx])).
  { subst asked. rewrite click_submit_enabled.
    - rewrite (submitQuestion_sends _ typed ctx); rewrite Htyped; try assumption.
      reflexivity.
    - rewrite Htyped. unfold SidePanel.submitDisabled.
      cbn [SidePanel.question SidePanel.isLoading]. now rewrite Hq, Hload. }
  subst done edited. rewrite Hasked. repeat split.
Qed.

(** The user asks about the title and, while waiting, starts typing a
    question about the links. *)
Lemma history_records_question_at_arrival_witness :
  let s :=
    SidePanel.mkState (Some emptyContext) EmptyString None false false "connected" None [] in
  let typed :=
    fst (SidePanel.deliver (SidePanel.Input SidePanel.questionField "title?") s) in
  let asked := SidePanel.deliver (SidePanel.Click SidePanel.submitButton) typed in
  let edited :=
    fst (SidePanel.deliver (SidePanel.Input SidePanel.questionField "links?") (fst asked)) in
  let done :=
    SidePanel.submitQuestion_resume (SidePanel.Responded true 200 (Some "The title is X"))
      "t" edited in
  snd asked = [SidePanel.FetchAsk "title?" emptyContext]
  /\ SidePanel.conversationHistory done = [SidePanel.mkItem "links?" "The title is X" "t"]
  /\ SidePanel.question done = EmptyString
  /\ SidePanel.conversationHistory
       (ExtensionPanel.submitQuestion_resume "title?"
          (SidePanel.Responded true 200 (Some "The title is X")) "t" s)
     = [SidePanel.mkItem "title?" "The title is X" "t"].
Proof.
  intros s typed asked edited done.
  apply (history_records_question_at_arrival PageContext s emptyContext
           "title?" "links?" "The title is X" "t" 200 s); reflexivity.
Defined.

(** X13: [formatTime] has three ranges.  A time less than a minute ago,
    or in the future, is shown as [Just now]; from one minute up to an hour
    the whole minutes are shown; from one hour on the whole hours of the
    difference, however many (days are never shown).  The unit is plural
    from two on. *)
Theorem formatTime_ranges (now time : Z) :
  let d := (now - time)%Z in
  ((d < 60000)%Z -> PanelExtras.formatTime now time = "Just now")
  /\ ((60000 <= d < 3600000)%Z ->
      PanelExtras.formatTime now time
      = JS.numStr (Z.to_nat (d / 60000)) ++ " minute"
        ++ (if (120000 <=? d)%Z then "s" else EmptyString) ++ " ago")
  /\ ((3600000 <= d)%Z ->
      PanelExtras.formatTime now time
      = JS.numStr (Z.to_nat (d / 3600000)) ++ " hour"
        ++ (if (7200000 <=? d)%Z then "s" else EmptyString) ++ " ago").
Proof.
  intros d. unfold PanelExtras.formatTime. cbv zeta. fold d.
  refine (conj _ (conj _ _)); intros H.
  - destruct (Z.ltb_spec (d / 60000) 1) as [L | L]; [reflexivity |].
    exfalso. revert L. Z.to_euclidean_division_equations. lia.
  - destruct (Z.ltb_spec (d / 60000) 1) as [L | L].
    { exfalso. revert L. Z.to_euclidean_division_equations. lia. }
    destruct (Z.ltb_spec (d / 60000) 60) as [M | M].
    2:{ exfalso. revert M. Z.to_euclidean_division_equations. lia. }
    destruct (Z.ltb_spec 1 (d / 60000)) as [P | P];
      destruct (Z.leb_spec 120000 d) as [Q | Q]; try reflexivity;
      exfalso; revert P; Z.to_euclidean_division_equations; lia.
  - destruct (Z.ltb_spec (d / 60000) 1) as [L | L].
    { exfalso. revert L. Z.to_euclidean_division_equations. lia. }
    destruct (Z.ltb_spec (d / 60000) 60) as [M | M].
    { exfalso. revert M. Z.to_euclidean_division_equations. lia. }
    rewrite Z.div_div by lia. change (60000 * 60)%Z with 3600000%Z.
    destruct (Z.ltb_spec 1 (d / 3600000)) as [P | P];
      destruct (Z.leb_spec 7200000 d) as [Q | Q]; try reflexivity;
      exfalso; revert P; Z.to_euclidean_division_equations; lia.
Qed.

(** Thirty seconds, ninety seconds, ninety minutes and two days ago. *)
Lemma formatTime_ranges_witness :
  PanelExtras.formatTime 172800000 172770000 = "Just now"
  /\ PanelExtras.formatTime 172800000 172710000 = "1 minute ago"
  /\ PanelExtras.formatTime 172800000 167400000 = "1 hour ago"
  /\ PanelExtras.formatTime 172800000 0 = "48 hours ago".
Proof.
  refine (conj _ (conj _ (conj _ _))).
  - apply (proj1 (formatTime_ranges 172800000 172770000)). lia.
  - apply (proj1 (proj2 (formatTime_ranges 172800000 172710000))). lia.
  - apply (proj2 (proj2 (formatTime_ranges 172800000 167400000))). lia.
  - apply (proj2 (proj2 (formatTime_ranges 172800000 0))). lia.
Defined.



